(** * Vector indexing and similarity search: a shallow embedding

    The development follows [src/services/embedding_service.py] (chunker,
    embedder with its cache) and [src/services/vector_service.py] (the
    store of embedding records and the two retrieval paths).

    Python values are modelled as follows.
    - [str] is [string]; lists are [list]; the cache dict is a [gmap].
    - [int] is [Z]; similarity scores are rationals [Q]. The code
      computes them in floating point, in two places that need not
      round alike: the two computations are separate parameters, each
      may give no number, and the statements that compare them bound
      their difference by a tolerance.
    - [Optional[T]] is [option T]; a caught exception is a constructor of
      the result type.
    - The embedding provider, [hashlib.md5], the numpy cosine expression
      and the storage engine's [vec_distance_cosine] operator are external
      collaborators: they are [Variable]s of the section that uses them. *)

From Stdlib Require Import ZArith QArith Qround Lia Lqa Ascii String List.
From Stdlib Require Import Sorted Permutation.
From stdpp Require Import base option list gmap strings.

Local Open Scope Z_scope.

(** Proofs depend on the section variables of their statements only. *)
Set Default Proof Using "Type".

(* ===================================================================== *)
(** * Chunker ([split_code_into_chunks]) *)
(* ===================================================================== *)

Module Chunker.

(** The line separator ["\n"]. *)
Definition newline : ascii := ascii_of_nat 10.

(** [code.split('\n')]: always at least one piece. *)
Fixpoint split_nl (s : string) : list string :=
  match s with
  | EmptyString => [EmptyString]
  | String c rest =>
      if Ascii.eqb c newline then EmptyString :: split_nl rest
      else match split_nl rest with
           | [] => [String c EmptyString]
           | l :: ls => String c l :: ls
           end
  end.

(** ['\n'.join(lines)]. *)
Fixpoint join_nl (lines : list string) : string :=
  match lines with
  | [] => EmptyString
  | l :: rest =>
      match rest with
      | [] => l
      | _ :: _ => String.append l (String newline (join_nl rest))
      end
  end.

(** The three loop variables: [chunks], [current_chunk],
    [current_length]. *)
Record loop_state := LoopState {
  chunks : list string;
  current_chunk : list string;
  current_length : Z
}.

(** A Python list is truthy when it is not empty. *)
Definition truthy_list {A} (l : list A) : bool :=
  match l with [] => false | _ :: _ => true end.

(** [len(line) // 4]. *)
Definition line_tokens (line : string) : Z :=
  Z.of_nat (String.length line) / 4.

(** One iteration of [for line in lines]. *)
Definition chunk_step (max_tokens : Z) (st : loop_state) (line : string)
  : loop_state :=
  if (current_length st + line_tokens line >? max_tokens)
     && truthy_list (current_chunk st)
  then {| chunks := chunks st ++ [join_nl (current_chunk st)];
          current_chunk := [line];
          current_length := line_tokens line |}
  else {| chunks := chunks st;
          current_chunk := current_chunk st ++ [line];
          current_length := current_length st + line_tokens line |}.

Fixpoint chunk_loop (max_tokens : Z) (st : loop_state) (lines : list string)
  : loop_state :=
  match lines with
  | [] => st
  | line :: rest => chunk_loop max_tokens (chunk_step max_tokens st line) rest
  end.

Definition split_code_into_chunks (code : string) (max_tokens : Z)
  : list string :=
  let st := chunk_loop max_tokens
              {| chunks := []; current_chunk := []; current_length := 0 |}
              (split_nl code) in
  if truthy_list (current_chunk st)
  then chunks st ++ [join_nl (current_chunk st)]
  else chunks st.

End Chunker.

(* ===================================================================== *)
(** * Data model *)
(* ===================================================================== *)

(** An embedding vector: the list of numbers the provider returns. *)
Definition embedding : Type := list Q.

(** What one POST to [/v1/embeddings] comes back with, as [embed_single]
    tells the cases apart. *)
Inductive response : Type :=
| Ok200 (e : embedding)      (* status 200, [result['data'][0]['embedding']] is [e] *)
| Null200                    (* status 200, [result['data'][0]['embedding']] is null *)
| Malformed200               (* status 200, reading the body raises *)
| ErrorStatus (status : Z)   (* any other status *)
| TransportFailure.          (* [session.post] raises: timeout, connection *)

(** [NomicEmbeddingService]: the cache, and a counter of the requests
    issued so far (kept for the properties, not read by the code). The
    cache holds what a 200 answer carried under ['embedding'], unchecked:
    a vector, or null ([None]), the two values of the declared type
    [Optional[List[float]]]. *)
Record NomicEmbeddingService : Type := mkEmbeddingService {
  embedding_cache : gmap string (option embedding);
  provider_calls : nat
}.

(** Exceptions that leave a function of the model. *)
Inductive exn : Type :=
| ValueError.

Inductive py_result (A : Type) : Type :=
| Return (a : A)
| Raise (e : exn).
Arguments Return {A} a.
Arguments Raise {A} e.

(** A row of the table [code_embeddings]; fields are the columns. *)
Module Row.
Record t : Type := mk {
  file_id : string;
  code_embedding : embedding;
  file_type : string;
  language : string;
  project_id : string;
  last_modified : Z;
  source_code : string;
  file_path : string;
  function_name : option string;
  context_info : string
}.
End Row.

(** An entry of a result list; fields are the keys of the dict. *)
Module Hit.
Record t : Type := mk {
  file_path : string;
  content : string;
  language : string;
  function_name : option string;
  context_info : string;
  similarity : Q
}.
End Hit.

(** Statements sent to the storage engine, in order (kept for the
    properties, not read by the code). *)
Inductive db_event : Type :=
| LoadExtension (path : string) (loaded : bool)
| CreateTables
| InsertOrReplace (file_id : string)
| VecDistanceQuery
| FallbackQuery.

(** What a call finds around it: whether [load_extension(path)] succeeds
    on the connection it opens, and the clock. *)
Record environment : Type := mkEnv {
  load_extension : string -> bool;
  timestamp : Z
}.

(** [VectorService]: its embedder, and the table in scan order. *)
Record VectorService : Type := mkVectorService {
  embedding_service : NomicEmbeddingService;
  code_embeddings : list Row.t;
  db_log : list db_event
}.

(** What the engine's [vec_distance_cosine] gives for a stored vector and
    the query vector. *)
Inductive distance_result : Type :=
| Distance (d : Q)     (* a number *)
| NullDistance         (* NULL: the quotient is not a number (a zero norm) *)
| DistanceError.       (* the function raises: the statement fails *)

(** How the body of the [try] of [search_similar_code] ends. *)
Inductive try_outcome (A : Type) : Type :=
| Completed (a : A)
| OperationalError     (* [sqlite3.OperationalError] *)
| OtherException.      (* any other exception, [TypeError] for one *)
Arguments Completed {A} a.
Arguments OperationalError {A}.
Arguments OtherException {A}.

(** The declared dimension of the column [code_embedding FLOAT[384]]. *)
Definition vec0_dimension : nat := 384.

(** ** List operations of Python and SQL *)

Definition nl : string := String Chunker.newline EmptyString.

(** Truthiness of an optional string argument ([if project_id:]). *)
Definition truthy_str (s : option string) : bool :=
  match s with
  | Some (String _ _) => true
  | _ => false
  end.

(** Truthiness of [Optional[List[float]]] ([if not embedding:]). *)
Definition truthy_embedding (e : option embedding) : bool :=
  match e with
  | Some (_ :: _) => true
  | _ => false
  end.

(** [l[:n]] for an integer [n] of either sign. *)
Definition py_slice_to {A : Type} (n : Z) (l : list A) : list A :=
  if n <? 0 then firstn (length l - Z.to_nat (- n)) l
  else firstn (Z.to_nat n) l.

(** [LIMIT n]: a negative [n] puts no bound on the rows returned. *)
Definition sql_limit {A : Type} (n : Z) (l : list A) : list A :=
  if n <? 0 then l else firstn (Z.to_nat n) l.

(** Insertion of [x] before the first element it is not after. *)
Fixpoint insert_by {A : Type} (le : A -> A -> bool) (x : A) (l : list A)
  : list A :=
  match l with
  | [] => [x]
  | y :: rest => if le x y then x :: y :: rest else y :: insert_by le x rest
  end.

(** A stable sort: elements that compare equal keep their order. It
    stands for [list.sort(key=..., reverse=True)], which is stable, and
    for [ORDER BY], whose ties are taken in scan order. *)
Fixpoint stable_sort_by {A : Type} (le : A -> A -> bool) (l : list A)
  : list A :=
  match l with
  | [] => []
  | x :: rest => insert_by le x (stable_sort_by le rest)
  end.

(** [WHERE project_id = ? AND language = ?], each clause present when
    its argument is truthy. *)
Definition where_sql (project_id language : option string) (r : Row.t)
  : bool :=
  (if truthy_str project_id
   then String.eqb (Row.project_id r) (default EmptyString project_id)
   else true)
  && (if truthy_str language
      then String.eqb (Row.language r) (default EmptyString language)
      else true).

(** [ORDER BY distance]: NULL comes before every number. *)
Definition distance_le (a b : option Q) : bool :=
  match a, b with
  | None, _ => true
  | Some _, None => false
  | Some x, Some y => Qle_bool x y
  end.

(** The entry built for a row and a similarity. *)
Definition row_hit (r : Row.t) (similarity : Q) : Hit.t :=
  Hit.mk (Row.file_path r) (Row.source_code r) (Row.language r)
         (Row.function_name r) (Row.context_info r) similarity.

(** [INSERT OR REPLACE] on the primary key [file_id]: the row of that
    [file_id], if there is one, is deleted and the new row is added. The
    table is an ordinary keyed table, the only one the statements of
    [_init_database] complete on; the declared type [FLOAT[384]] of the
    column [code_embedding] is a name there and constrains nothing. *)
Definition insert_or_replace (table : list Row.t) (r : Row.t) : list Row.t :=
  List.filter (fun x => negb (String.eqb (Row.file_id x) (Row.file_id r)))
              table
  ++ [r].

(** A comparison in [bool] that is total, and one that is transitive. *)
Definition le_total {A : Type} (le : A -> A -> bool) : Prop :=
  forall a b, le a b = true \/ le b a = true.

Definition le_trans {A : Type} (le : A -> A -> bool) : Prop :=
  forall a b c, le a b = true -> le b c = true -> le a c = true.

(** Number of [load_extension] statements in a log. *)
Definition probes (log : list db_event) : nat :=
  length (List.filter
            (fun ev => match ev with LoadExtension _ _ => true | _ => false end)
            log).

(** ** Records of the other operations *)

(** The dict [get_project_stats] returns. *)
Module ProjectStats.
Record t : Type := mk {
  total_files : nat;
  languages : nat;
  total_chars : Z;
  last_indexed : option Z;
  status : string
}.
End ProjectStats.

(** The dict [get_all_stats] returns. *)
Module AllStats.
Record t : Type := mk {
  total_embeddings : nat;
  file_types : gmap string nat;
  languages : gmap string nat;
  projects : gmap string nat
}.
End AllStats.

(** An element of the list given to [batch_index_files]. The key
    ['metadata'] may be absent ([None]); when present its value is the
    dict or [None]. *)
Module FileData.
Record t : Type := mk {
  file_path : string;
  content : string;
  language : string;
  project_id : string;
  metadata : option (option (gmap string string))
}.
End FileData.

(** The dict [batch_index_files] returns. *)
Module BatchResult.
Record t : Type := mk {
  successful : nat;
  failed : nat;
  errors : list string
}.
End BatchResult.

(** [CodeSearchRequest] of [main.py]: every field but the query is
    optional. *)
Module CodeSearchRequest.
Record t : Type := mk {
  query : string;
  project_id : option string;
  language : option string;
  limit : option Z;
  threshold : option Q
}.
End CodeSearchRequest.

(** The body of the answer of [search_code]. *)
Module SearchResponse.
Record t : Type := mk {
  query : string;
  results : list Hit.t;
  total : nat
}.
End SearchResponse.

(** What [record_search_activity] is called with. *)
Record search_activity : Type := mkActivity {
  activity_user_uid : string;
  activity_project_id : string;
  activity_query : string;
  activity_results_count : nat
}.

(** An endpoint returns, or raises [HTTPException(status_code, detail)]. *)
Inductive http_result (A : Type) : Type :=
| HttpReturn (a : A)
| HttpException (status_code : Z) (detail : string).
Arguments HttpReturn {A} a.
Arguments HttpException {A} status_code detail.

(** [x or d] for an optional integer: [None] and [0] are falsy. *)
Definition py_or_int (x : option Z) (d : Z) : Z :=
  match x with
  | Some n => if n =? 0 then d else n
  | None => d
  end.

(** [x or d] for an optional float: [None] and [0.0] are falsy. *)
Definition py_or_float (x : option Q) (d : Q) : Q :=
  match x with
  | Some t => if Qeq_bool t 0 then d else t
  | None => d
  end.

(** [SUM(col)] and [MAX(col)]: [NULL] over no row. *)
Definition sql_sum (values : list Z) : option Z :=
  match values with
  | [] => None
  | _ :: _ => Some (fold_right Z.add 0 values)
  end.

Definition sql_max (values : list Z) : option Z :=
  match values with
  | [] => None
  | v :: rest => Some (fold_right Z.max v rest)
  end.

(** [SELECT key, COUNT( * ) ... GROUP BY key] read into a dict. *)
Definition group_count (key : Row.t -> string) (table : list Row.t)
  : gmap string nat :=
  fold_right
    (fun r counts => <[key r := S (default 0%nat (counts !! key r))]> counts)
    ∅ table.

(** The estimated tokens of a group of lines, as [current_length]
    accumulates them. *)
Definition group_tokens (lines : list string) : Z :=
  fold_right (fun line acc => Chunker.line_tokens line + acc) 0 lines.

(** Within the budget, or a single line. *)
Definition within_budget (max_tokens : Z) (group : list string) : Prop :=
  group_tokens group <= max_tokens \/ length group = 1%nat.

(** Between two groups that follow each other, the first line of the
    second did not fit with the first. *)
Fixpoint greedy (max_tokens : Z) (groups : list (list string)) : Prop :=
  match groups with
  | g :: rest =>
      match rest with
      | (line :: _) :: _ =>
          max_tokens < group_tokens g + Chunker.line_tokens line
      | _ => True
      end
      /\ greedy max_tokens rest
  | [] => True
  end.

(** ** Concrete collaborators and data

    Used to run the model: a stand-in for the hash, providers, vectors
    of norm one (their dot product is their cosine), stand-ins for the
    two computations of the similarity, two environments and small
    tables. *)

Definition hash_stub (text : string) : string := text.

(** The unit vector of dimension 384 along the axis [k]. *)
Definition unit_vector (k : nat) : embedding :=
  repeat 0%Q k ++ [1%Q] ++ repeat 0%Q (383 - k).

Definition provider_ok (n : nat) (text : string) : response :=
  Ok200 (unit_vector n).

Definition provider_second_fails (n : nat) (text : string) : response :=
  if Nat.eqb n 1 then TransportFailure else Ok200 (unit_vector n).

Definition provider_down (n : nat) (text : string) : response :=
  TransportFailure.


(** Answers every request with a vector of two components. *)
Definition provider_short (n : nat) (text : string) : response :=
  Ok200 [1%Q; 0%Q].

(** Answers every request with the same vector. *)
Definition provider_same (n : nat) (text : string) : response :=
  Ok200 (unit_vector 0).

(** Answers every request with a 200 whose embedding is null. *)
Definition provider_null (n : nat) (text : string) : response := Null200.

Fixpoint dot (a b : embedding) : Q :=
  match a, b with
  | x :: a', y :: b' => (x * y + dot a' b')%Q
  | _, _ => 0%Q
  end.

(** A vector whose components are all zero: its norm is zero. *)
Definition zero_norm (v : embedding) : bool :=
  forallb (fun x => Qeq_bool x 0) v.

(** The cosine of numpy on vectors of norm one: no number when the
    shapes differ ([np.dot] raises) or a norm is zero (the quotient is
    NaN, which no threshold is below). *)
Definition cosine_stub (query stored : embedding) : option Q :=
  if negb (Nat.eqb (length query) (length stored)) then None
  else if zero_norm query || zero_norm stored then None
  else Some (dot query stored).

(** The distance of the engine on vectors of norm one: an error when
    the lengths differ, NULL when a norm is zero. *)
Definition distance_stub (stored query : embedding) : distance_result :=
  if negb (Nat.eqb (length query) (length stored)) then DistanceError
  else if zero_norm query || zero_norm stored then NullDistance
  else Distance (1 - dot query stored)%Q.

(** An engine of low precision: the distance is kept to one decimal. *)
Definition round_tenths (x : Q) : Q := Qfloor (x * 10 + (1 # 2)) # 10.

Definition distance_coarse (stored query : embedding) : distance_result :=
  match distance_stub stored query with
  | Distance d => Distance (round_tenths d)
  | other => other
  end.

Definition env_without_extension : environment :=
  mkEnv (fun _ => false) 1700000000.

Definition env_with_extension : environment :=
  mkEnv (fun _ => true) 1700000100.

Definition fresh_service : NomicEmbeddingService :=
  mkEmbeddingService ∅ 0.

Definition row_a : Row.t :=
  Row.mk "p1:a.py" (unit_vector 0) "python" "python" "p1" 1700000000
         "def f(): pass" "a.py" None "{}".

Definition row_b : Row.t :=
  Row.mk "p1:b.py" (unit_vector 1) "python" "python" "p1" 1700000001
         "def g(): pass" "b.py" None "{}".

Definition two_rows : list Row.t := [row_a; row_b].

(** A row of another project. *)
Definition row_c : Row.t :=
  Row.mk "p2:c.py" (unit_vector 2) "python" "python" "p2" 1700000002
         "def h(): pass" "c.py" None "{}".

Definition three_rows : list Row.t := [row_a; row_b; row_c].


(** Rows with vectors of norm one in the plane; against the query
    vector [plane_query] their cosine is their first component. *)
Definition plane_row (name : string) (x y : Q) : Row.t :=
  Row.mk (String.append "p1:" name) [x; y] "python" "python" "p1"
         1700000004 "pass" name None "{}".

Definition plane_query : embedding := [1%Q; 0%Q].

(** Cosines 0.6, 0.96, 0.28 and 0.8, in that order. *)
Definition four_rows : list Row.t :=
  [plane_row "w1.py" (3 # 5) (4 # 5);
   plane_row "w2.py" (24 # 25) (7 # 25);
   plane_row "w3.py" (7 # 25) (24 # 25);
   plane_row "w4.py" (4 # 5) (3 # 5)].


(* ===================================================================== *)
(** * Embedder and vector store *)
(* ===================================================================== *)

Section Services.

(** [hashlib.md5(text.encode()).hexdigest()]. *)
Variable md5_hex : string -> string.

(** The provider: its answer to the request numbered [n] (requests are
    numbered from 0 in the order they are issued) for a text. *)
Variable provider : nat -> string -> response.

(** [np.dot(q, s) / (np.linalg.norm(q) * np.linalg.norm(s))], as a
    function of the query vector and the stored vector: a number, or
    [None] when the expression raises (vectors of different lengths) or
    is not a number (a zero norm). *)
Variable np_cosine : embedding -> embedding -> option Q.

(** The engine's [vec_distance_cosine(code_embedding, ?)], as a function
    of the stored vector and the query vector. *)
Variable vec_distance_cosine : embedding -> embedding -> distance_result.

(** ** [NomicEmbeddingService] *)

(** The part of [embed_single] after a cache miss: one request; what a
    200 answer carries under ['embedding'] is cached and returned as it
    is, null included; any other answer caches nothing. *)
Definition post_embedding (svc : NomicEmbeddingService) (text : string)
  : option embedding * NomicEmbeddingService :=
  match provider (provider_calls svc) text with
  | Ok200 e =>
      (Some e,
       mkEmbeddingService (<[md5_hex text := Some e]> (embedding_cache svc))
                          (S (provider_calls svc)))
  | Null200 =>
      (None,
       mkEmbeddingService (<[md5_hex text := None]> (embedding_cache svc))
                          (S (provider_calls svc)))
  | _ =>
      (None,
       mkEmbeddingService (embedding_cache svc) (S (provider_calls svc)))
  end.

(** One task of a batch: the cache it tests is the cache [seen] when the
    task starts. *)
Definition embed_task (seen : gmap string (option embedding))
  (svc : NomicEmbeddingService) (text : string)
  : option embedding * NomicEmbeddingService :=
  match seen !! md5_hex text with
  | Some cached => (cached, svc)
  | None => post_embedding svc text
  end.

Definition embed_single (svc : NomicEmbeddingService) (text : string)
  : option embedding * NomicEmbeddingService :=
  embed_task (embedding_cache svc) svc text.

(** [asyncio.gather] over the tasks of one batch. Every task tests the
    cache before its first suspension, hence before any request of the
    batch is answered: all of them see the cache [seen] of the start of
    the batch. Requests are issued, and answers recorded, in task order;
    the results come back in task order. *)
Fixpoint gather (seen : gmap string (option embedding))
  (svc : NomicEmbeddingService)
  (batch : list string)
  : list (option embedding) * NomicEmbeddingService :=
  match batch with
  | [] => ([], svc)
  | text :: rest =>
      let '(r, svc1) := embed_task seen svc text in
      let '(rs, svc2) := gather seen svc1 rest in
      (r :: rs, svc2)
  end.

(** The loop [for i in range(0, len(texts), batch_size)] for a positive
    step; [fuel] bounds the number of iterations. *)
Fixpoint batch_loop (fuel : nat) (i batch_size : nat) (texts : list string)
  (svc : NomicEmbeddingService) (results : list (option embedding))
  : list (option embedding) * NomicEmbeddingService :=
  match fuel with
  | O => (results, svc)
  | S fuel' =>
      if (i <? length texts)%nat then
        let batch := firstn batch_size (skipn i texts) in
        let '(batch_results, svc') := gather (embedding_cache svc) svc batch in
        batch_loop fuel' (i + batch_size) batch_size texts svc'
                   (results ++ batch_results)
      else (results, svc)
  end.

(** [embed_batch]: [range] raises on a zero step and is empty for a
    negative one. *)
Definition embed_batch (svc : NomicEmbeddingService) (texts : list string)
  (batch_size : Z)
  : py_result (list (option embedding) * NomicEmbeddingService) :=
  if batch_size =? 0 then Raise ValueError
  else if batch_size <? 0 then Return ([], svc)
  else Return (batch_loop (length texts) 0 (Z.to_nat batch_size) texts svc []).

Definition embed_code_snippet (svc : NomicEmbeddingService)
  (code language context : string)
  : option embedding * NomicEmbeddingService :=
  let formatted_text := String.append "Language: " (String.append language nl) in
  let formatted_text :=
    match context with
    | EmptyString => formatted_text
    | _ => String.append formatted_text
             (String.append "Context: " (String.append context nl))
    end in
  let formatted_text :=
    String.append formatted_text
      (String.append "Code:" (String.append nl code)) in
  embed_single svc formatted_text.

(** ** [VectorService] *)

(** [__init__] with [_init_database]: the extension is tried under two
    names, then the tables are created if they are not there; [stored]
    is what the database file holds already. *)
Definition _init_database (E : environment) : list db_event :=
  (if load_extension E "vec0"
   then [LoadExtension "vec0" true]
   else [LoadExtension "vec0" false;
         LoadExtension "./vec0" (load_extension E "./vec0")])
  ++ [CreateTables].

Definition init (E : environment) (stored : list Row.t) : VectorService :=
  mkVectorService (mkEmbeddingService ∅ 0) stored (_init_database E).

(** The row [index_code_snippet] writes. [metadata] is the dict or
    [None]; its values are taken as their text ([context_info] as its
    JSON text). An empty dict is falsy. *)
Definition metadata_truthy (metadata : option (gmap string string)) : bool :=
  match metadata with
  | Some m => negb (bool_decide (m = ∅))
  | None => false
  end.

Definition metadata_get (metadata : option (gmap string string)) (key : string)
  : option string :=
  match metadata with
  | Some m => m !! key
  | None => None
  end.

Definition snippet_row (E : environment) (e : embedding)
  (file_path content language project_id : string)
  (metadata : option (gmap string string)) : Row.t :=
  Row.mk
    (String.append project_id (String.append ":" file_path))
    e
    (if metadata_truthy metadata
     then default language (metadata_get metadata "file_type")
     else language)
    language
    project_id
    (timestamp E)
    content
    file_path
    (if metadata_truthy metadata
     then metadata_get metadata "function_name"
     else None)
    (if metadata_truthy metadata
     then default "{}" (metadata_get metadata "context_info")
     else "{}").

Definition index_code_snippet (E : environment) (vs : VectorService)
  (file_path content language project_id : string)
  (metadata : option (gmap string string))
  : bool * VectorService :=
  let '(emb, es) :=
    embed_code_snippet (embedding_service vs) content language
      (String.append "File: " file_path) in
  if truthy_embedding emb then
    let e := default [] emb in
    let probe := LoadExtension "vec0" (load_extension E "vec0") in
    let r := snippet_row E e file_path content language project_id metadata in
    (true,
     mkVectorService es (insert_or_replace (code_embeddings vs) r)
       (db_log vs ++ [probe; InsertOrReplace (Row.file_id r)]))
  else (false, mkVectorService es (code_embeddings vs) (db_log vs)).

(** The distance column of the rows the accelerated statement reads,
    [None] for NULL; no list when the function raises on one of them. *)
Fixpoint select_distances (query_embedding : embedding) (rows : list Row.t)
  : option (list (Row.t * option Q)) :=
  match rows with
  | [] => Some []
  | r :: rest =>
      match vec_distance_cosine (Row.code_embedding r) query_embedding,
            select_distances query_embedding rest with
      | DistanceError, _ => None
      | _, None => None
      | Distance d, Some fetched => Some ((r, Some d) :: fetched)
      | NullDistance, Some fetched => Some ((r, None) :: fetched)
      end
  end.

(** The loop over the fetched rows: [1 - row[5]] raises on a NULL
    distance; a row is kept when its similarity is at or above the
    threshold. No list when the loop raises. *)
Fixpoint accelerated_loop (threshold : Q) (fetched : list (Row.t * option Q))
  : option (list Hit.t) :=
  match fetched with
  | [] => Some []
  | (r, None) :: _ => None
  | (r, Some distance) :: rest =>
      match accelerated_loop threshold rest with
      | None => None
      | Some results =>
          Some (if Qle_bool threshold (1 - distance)%Q
                then row_hit r (1 - distance)%Q :: results
                else results)
      end
  end.

(** The body of the [try] in [search_similar_code] once the extension is
    loaded: the engine filters, computes the distance, orders by it and
    limits (rows of equal distance are taken in scan order); the loop
    builds the results. *)
Definition accelerated_search (table : list Row.t) (query_embedding : embedding)
  (project_id language : option string) (limit : Z) (threshold : Q)
  : try_outcome (list Hit.t) :=
  match select_distances query_embedding
          (List.filter (where_sql project_id language) table) with
  | None => OperationalError
  | Some rows =>
      match accelerated_loop threshold
              (sql_limit limit
                 (stable_sort_by (fun a b => distance_le (snd a) (snd b))
                    rows)) with
      | Some results => Completed results
      | None => OtherException
      end
  end.

(** The loop of the fallback: a row whose similarity cannot be computed
    (the handler of the loop) or is not at or above the threshold (NaN
    included) is left out. *)
Fixpoint fallback_loop (threshold : Q) (query_embedding : embedding)
  (rows : list Row.t) : list Hit.t :=
  match rows with
  | [] => []
  | r :: rest =>
      match np_cosine query_embedding (Row.code_embedding r) with
      | Some similarity =>
          if Qle_bool threshold similarity
          then row_hit r similarity
               :: fallback_loop threshold query_embedding rest
          else fallback_loop threshold query_embedding rest
      | None => fallback_loop threshold query_embedding rest
      end
  end.

Definition _fallback_similarity_search (table : list Row.t)
  (query_embedding : embedding) (project_id language : option string)
  (limit : Z) (threshold : Q) : list Hit.t :=
  let rows := List.filter (where_sql project_id language) table in
  let results := fallback_loop threshold query_embedding rows in
  py_slice_to limit
    (stable_sort_by
       (fun a b => Qle_bool (Hit.similarity b) (Hit.similarity a)) results).

(** [search_similar_code]. The fallback runs when loading the extension
    or the accelerated statement raises [sqlite3.OperationalError]; any
    other exception ends the call with the empty list. *)
Definition search_similar_code (E : environment) (vs : VectorService)
  (query : string) (project_id language : option string)
  (limit : Z) (threshold : Q) : list Hit.t * VectorService :=
  let '(emb, es) := embed_single (embedding_service vs) query in
  if truthy_embedding emb then
    let query_embedding := default [] emb in
    if load_extension E "vec0" then
      match accelerated_search (code_embeddings vs) query_embedding
              project_id language limit threshold with
      | Completed results =>
          (results,
           mkVectorService es (code_embeddings vs)
             (db_log vs ++ [LoadExtension "vec0" true; VecDistanceQuery]))
      | OperationalError =>
          (_fallback_similarity_search (code_embeddings vs) query_embedding
             project_id language limit threshold,
           mkVectorService es (code_embeddings vs)
             (db_log vs ++ [LoadExtension "vec0" true; VecDistanceQuery;
                            FallbackQuery]))
      | OtherException =>
          ([],
           mkVectorService es (code_embeddings vs)
             (db_log vs ++ [LoadExtension "vec0" true; VecDistanceQuery]))
      end
    else
      (_fallback_similarity_search (code_embeddings vs) query_embedding
         project_id language limit threshold,
       mkVectorService es (code_embeddings vs)
         (db_log vs ++ [LoadExtension "vec0" false; FallbackQuery]))
  else ([], mkVectorService es (code_embeddings vs) (db_log vs)).

(** ** The other operations *)

(** The loop of the module-level [index_code_file]: one embedding per
    chunk, kept when it is truthy. *)
Fixpoint embed_chunks (svc : NomicEmbeddingService) (chunks : list string)
  (language context : string)
  : list embedding * NomicEmbeddingService :=
  match chunks with
  | [] => ([], svc)
  | chunk :: rest =>
      let '(emb, svc1) := embed_code_snippet svc chunk language context in
      let '(embeddings, svc2) := embed_chunks svc1 rest language context in
      (if truthy_embedding emb then default [] emb :: embeddings
       else embeddings, svc2)
  end.

(** [index_code_file] of [embedding_service.py]. After the loop it calls
    [store_embeddings_in_db], a name that is bound nowhere: the call
    raises [NameError], the handler prints and returns [False]. *)
Definition index_code_file (svc : NomicEmbeddingService)
  (file_path content language : string)
  : bool * NomicEmbeddingService :=
  let chunks := Chunker.split_code_into_chunks content 6000 in
  let '(embeddings, svc') :=
    embed_chunks svc chunks language (String.append "File: " file_path) in
  (false, svc').

(** [get_project_stats]: the aggregates over the rows of the project. *)
Definition get_project_stats (vs : VectorService) (project_id : string)
  : ProjectStats.t :=
  let rows :=
    List.filter (fun r => String.eqb (Row.project_id r) project_id)
                (code_embeddings vs) in
  let count := length rows in
  ProjectStats.mk
    count
    (length (remove_dups (map Row.language rows)))
    (py_or_int
       (sql_sum (map (fun r => Z.of_nat (String.length (Row.source_code r)))
                     rows)) 0)
    (sql_max (map Row.last_modified rows))
    (if (0 <? count)%nat then "completed" else "empty").

(** [delete_project_embeddings]: the rows of the project are deleted;
    the log of probes and queries is not extended. *)
Definition delete_project_embeddings (vs : VectorService)
  (project_id : string) : bool * VectorService :=
  (true,
   mkVectorService (embedding_service vs)
     (List.filter (fun r => negb (String.eqb (Row.project_id r) project_id))
                  (code_embeddings vs))
     (db_log vs)).

(** [get_all_stats], the four queries succeeding. *)
Definition get_all_stats (vs : VectorService) : AllStats.t :=
  AllStats.mk
    (length (code_embeddings vs))
    (group_count Row.file_type (code_embeddings vs))
    (group_count Row.language (code_embeddings vs))
    (group_count Row.project_id (code_embeddings vs)).

(** [batch_index_files]: the files one after the other; [clock i] is
    what the call for the file at position [i] finds around it. *)
Fixpoint batch_index_loop (clock : nat -> environment) (i : nat)
  (vs : VectorService) (files : list FileData.t) (results : BatchResult.t)
  : BatchResult.t * VectorService :=
  match files with
  | [] => (results, vs)
  | file_data :: rest =>
      let '(success, vs') :=
        index_code_snippet (clock i) vs
          (FileData.file_path file_data) (FileData.content file_data)
          (FileData.language file_data) (FileData.project_id file_data)
          (default (Some ∅) (FileData.metadata file_data)) in
      batch_index_loop clock (S i) vs' rest
        (if success
         then BatchResult.mk (S (BatchResult.successful results))
                (BatchResult.failed results) (BatchResult.errors results)
         else BatchResult.mk (BatchResult.successful results)
                (S (BatchResult.failed results))
                (BatchResult.errors results
                   ++ [String.append "Failed to index "
                         (FileData.file_path file_data)]))
  end.

Definition batch_index_files (clock : nat -> environment)
  (vs : VectorService) (files : list FileData.t)
  : BatchResult.t * VectorService :=
  batch_index_loop clock 0 vs files (BatchResult.mk 0 0 []).

(** The endpoint [search_code] of [main.py]. [get_project] tells whether
    the project store returns a project for the project and the user.
    The answer comes with the activity recorded, if any. *)
Definition search_code (get_project : string -> string -> bool)
  (E : environment) (vs : VectorService)
  (request : CodeSearchRequest.t) (user_uid : string)
  : http_result (SearchResponse.t * option search_activity) * VectorService :=
  if truthy_str (CodeSearchRequest.project_id request)
     && negb (get_project
                (default EmptyString (CodeSearchRequest.project_id request))
                user_uid)
  then (HttpException 404 "Project not found or access denied", vs)
  else
    let '(results, vs') :=
      search_similar_code E vs
        (CodeSearchRequest.query request)
        (CodeSearchRequest.project_id request)
        (CodeSearchRequest.language request)
        (py_or_int (CodeSearchRequest.limit request) 10)
        (py_or_float (CodeSearchRequest.threshold request) (7 # 10)) in
    (HttpReturn
       (SearchResponse.mk (CodeSearchRequest.query request) results
          (length results),
        if truthy_str (CodeSearchRequest.project_id request)
        then Some (mkActivity user_uid
                     (default EmptyString (CodeSearchRequest.project_id request))
                     (CodeSearchRequest.query request) (length results))
        else None),
     vs').

(** An entry is the payload of a row. *)
Definition hit_of_row (h : Hit.t) (r : Row.t) : Prop :=
  Hit.file_path h = Row.file_path r
  /\ Hit.content h = Row.source_code r
  /\ Hit.language h = Row.language r
  /\ Hit.function_name h = Row.function_name r
  /\ Hit.context_info h = Row.context_info r.







(** The primary key: no two rows share a [file_id]. *)
Definition table_file_ids_unique (table : list Row.t) : Prop :=
  NoDup (map Row.file_id table).

(** ** Predicates used in the statements *)


Definition cached_value (r : response) : option (option embedding) :=
  match r with
  | Ok200 e => Some (Some e)
  | Null200 => Some None
  | _ => None
  end.



(** Every stored vector has the declared dimension. *)
Definition table_dimension_ok (table : list Row.t) : Prop :=
  Forall (fun r => length (Row.code_embedding r) = vec0_dimension) table.

(** Every row's [file_id] is the one [index_code_snippet] builds from the
    row's own [project_id] and [file_path]. *)
Definition table_keys_ok (table : list Row.t) : Prop :=
  Forall (fun r => Row.file_id r
                   = String.append (Row.project_id r)
                       (String.append ":" (Row.file_path r))) table.

(** The rows of a key [(project_id, file_path)]. *)
Definition rows_of_key (project_id file_path : string) (table : list Row.t)
  : list Row.t :=
  List.filter
    (fun r => String.eqb (Row.project_id r) project_id
              && String.eqb (Row.file_path r) file_path)
    table.

(** The two orders: ascending distance, descending similarity. *)
Definition by_distance (a b : Row.t * option Q) : bool :=
  distance_le (snd a) (snd b).

Definition by_similarity_desc (a b : Hit.t) : bool :=
  Qle_bool (Hit.similarity b) (Hit.similarity a).

Definition above (threshold : Q) (results : list Hit.t) : Prop :=
  Forall (fun h => (threshold <= Hit.similarity h)%Q) results.

Definition non_increasing (results : list Hit.t) : Prop :=
  StronglySorted
    (fun a b => (Hit.similarity b <= Hit.similarity a)%Q) results.

(* ===================================================================== *)
(** * Sorting, limiting and filtering: general facts *)
(* ===================================================================== *)

Lemma In_firstn_In {A : Type} (x : A) n l : In x (firstn n l) -> In x l.
Proof.
  revert n. induction l as [|y l IH]; intros [|n]; simpl; try contradiction.
  intros [->|H]; [now left|right; eauto].
Qed.

Lemma filter_none {A : Type} (p : A -> bool) l :
  Forall (fun z => p z = false) l -> List.filter p l = [].
Proof. induction 1 as [|z l Hz _ IH]; simpl; [reflexivity|]. now rewrite Hz. Qed.

Section SortFacts.

Context {A : Type} (le : A -> A -> bool).

Abbreviation sorted := (StronglySorted (fun a b => le a b = true)).

Lemma insert_by_In x y l : In y (insert_by le x l) <-> y = x \/ In y l.
Proof.
  induction l as [|z l IH]; simpl.
  - intuition congruence.
  - destruct (le x z); simpl; [intuition congruence|].
    rewrite IH. intuition congruence.
Qed.

Lemma stable_sort_by_In y l : In y (stable_sort_by le l) <-> In y l.
Proof.
  induction l as [|x l IH]; simpl; [tauto|].
  rewrite insert_by_In, IH. intuition congruence.
Qed.

Lemma stable_sort_by_Forall (P : A -> Prop) l :
  Forall P l -> Forall P (stable_sort_by le l).
Proof.
  rewrite !List.Forall_forall. intros H x Hx.
  apply H. now apply stable_sort_by_In.
Qed.

Lemma insert_by_sorted x l :
  le_total le -> le_trans le -> sorted l -> sorted (insert_by le x l).
Proof.
  intros Htot Htr. induction 1 as [|y l Hs IH Hy]; simpl.
  - repeat constructor.
  - destruct (le x y) eqn:Exy.
    + constructor; [constructor; assumption|].
      constructor; [assumption|].
      rewrite List.Forall_forall in *. intros z Hz. eauto.
    + constructor; [assumption|].
      rewrite List.Forall_forall in *. intros z Hz.
      apply insert_by_In in Hz as [->|Hz]; [|auto].
      destruct (Htot x y) as [H|H]; congruence.
Qed.

Lemma stable_sort_by_sorted l :
  le_total le -> le_trans le -> sorted (stable_sort_by le l).
Proof.
  intros Htot Htr. induction l as [|x l IH]; simpl.
  - constructor.
  - now apply insert_by_sorted.
Qed.

Lemma sorted_firstn n l : sorted l -> sorted (firstn n l).
Proof.
  intros H. revert n. induction H as [|y l Hs IH Hy]; intros [|n]; simpl;
    try constructor.
  - apply IH.
  - rewrite List.Forall_forall in *. intros z Hz.
    apply Hy. eapply In_firstn_In; eauto.
Qed.

Lemma sorted_filter (p : A -> bool) l : sorted l -> sorted (List.filter p l).
Proof.
  induction 1 as [|y l Hs IH Hy]; simpl; [constructor|].
  destruct (p y); [|assumption].
  constructor; [assumption|].
  rewrite List.Forall_forall in *. intros z Hz.
  apply List.filter_In in Hz as [Hz _]. auto.
Qed.







Lemma stable_sort_by_ext (le' : A -> A -> bool) l :
  (forall a b, le a b = le' a b) ->
  stable_sort_by le l = stable_sort_by le' l.
Proof.
  intros H. induction l as [|x l IH]; simpl; [reflexivity|].
  rewrite IH. generalize (stable_sort_by le' l). intros t.
  induction t as [|y t IHt]; simpl; [reflexivity|].
  rewrite H, IHt. reflexivity.
Qed.

End SortFacts.
(* ===================================================================== *)
(** * Embedder: properties *)
(* ===================================================================== *)

(** C5. After a call [embed_single text] that returned a vector, a second
    call on the resulting service returns the same vector and leaves the
    service as it is: no request is issued. When the first call was a
    miss, it issued exactly one request, which is then the only request
    of the two calls. *)
Theorem embed_single_second_call_is_cache_hit
  (svc svc1 : NomicEmbeddingService) (text : string) (v : embedding) :
  embed_single svc text = (Some v, svc1) ->
  embed_single svc1 text = (Some v, svc1)
  /\ provider_calls (snd (embed_single svc1 text)) = provider_calls svc1
  /\ (embedding_cache svc !! md5_hex text = None ->
      provider_calls (snd (embed_single svc1 text))
      = S (provider_calls svc)).
Proof.
  unfold embed_single, embed_task. intros H.
  destruct (embedding_cache svc !! md5_hex text) as [e|] eqn:Ehit.
  - inversion H; subst. rewrite Ehit. simpl. repeat split. discriminate.
  - unfold post_embedding in H.
    destruct (provider (provider_calls svc) text) eqn:Eresp;
      inversion H; subst; clear H.
    simpl. rewrite lookup_insert_eq. simpl. repeat split.
Qed.







(* ===================================================================== *)
(** * Vector store: writes *)
(* ===================================================================== *)

(** What a call of [index_code_snippet] does, case by case. *)
Lemma index_code_snippet_cases E vs file_path content language project_id
  metadata :
  let out := index_code_snippet E vs file_path content language project_id
               metadata in
  let emb := fst (embed_code_snippet (embedding_service vs) content language
                    (String.append "File: " file_path)) in
  (truthy_embedding emb = false
   /\ fst out = false /\ code_embeddings (snd out) = code_embeddings vs)
  \/ (exists e, emb = Some e /\ e <> []
      /\ fst out = true
      /\ code_embeddings (snd out)
         = List.filter
             (fun x => negb (String.eqb (Row.file_id x)
                               (String.append project_id
                                  (String.append ":" file_path))))
             (code_embeddings vs)
           ++ [snippet_row E e file_path content language project_id
                 metadata]).
Proof.
  unfold index_code_snippet. cbv zeta.
  destruct (embed_code_snippet _ _ _ _) as [emb es]. simpl fst.
  destruct emb as [[|x e]|]; simpl truthy_embedding; cbv iota;
    [left; repeat split | | left; repeat split].
  right. exists (x :: e). simpl. repeat split; congruence.
Qed.

(** The keys stay well formed, whatever the call. *)
Lemma index_code_snippet_keeps_keys E vs file_path content language
  project_id metadata :
  table_keys_ok (code_embeddings vs) ->
  table_keys_ok
    (code_embeddings
       (snd (index_code_snippet E vs file_path content language project_id
               metadata))).
Proof.
  intros Hok.
  destruct (index_code_snippet_cases E vs file_path content language
              project_id metadata) as [(_ & _ & ->)|(e & _ & _ & _ & ->)];
    [assumption|].
  unfold table_keys_ok in *. apply Forall_app. split.
  - rewrite List.Forall_forall in *. intros r Hr.
    apply List.filter_In in Hr as [Hr _]. auto.
  - repeat constructor.
Qed.

Lemma filter_filter_same {A} (p : A -> bool) l :
  List.filter p (List.filter p l) = List.filter p l.
Proof.
  induction l as [|x l IH]; simpl; [reflexivity|].
  destruct (p x) eqn:E; simpl; [rewrite E, IH|]; auto.
Qed.

Lemma snippet_row_file_id E e file_path content language project_id metadata :
  Row.file_id (snippet_row E e file_path content language project_id metadata)
  = String.append project_id (String.append ":" file_path).
Proof. reflexivity. Qed.

(** C7. Two successful upserts of one key [(project_id, file_path)], one
    after the other: the table then holds exactly one row of that key,
    the row built from the arguments and the vector of the second call
    alone. *)
Theorem index_code_snippet_second_write_replaces
  (E1 E2 : environment) (vs0 vs1 vs2 : VectorService)
  (file_path project_id : string)
  (content1 language1 content2 language2 : string)
  (metadata1 metadata2 : option (gmap string string)) :
  table_keys_ok (code_embeddings vs0) ->
  index_code_snippet E1 vs0 file_path content1 language1 project_id metadata1
  = (true, vs1) ->
  index_code_snippet E2 vs1 file_path content2 language2 project_id metadata2
  = (true, vs2) ->
  exists e2,
    fst (embed_code_snippet (embedding_service vs1) content2 language2
           (String.append "File: " file_path)) = Some e2
    /\ rows_of_key project_id file_path (code_embeddings vs2)
       = [snippet_row E2 e2 file_path content2 language2 project_id metadata2].
Proof.
  intros Hkeys H1 H2.
  destruct (index_code_snippet_cases E1 vs0 file_path content1 language1
              project_id metadata1) as [(_ & Hf & _)|(e1 & _ & _ & _ & Ht1)];
    rewrite H1 in *; simpl in *; [discriminate|].
  destruct (index_code_snippet_cases E2 vs1 file_path content2 language2
              project_id metadata2) as [(_ & Hf & _)|(e2 & He2 & _ & _ & Ht2)];
    rewrite H2 in *; simpl in *; [discriminate|].
  exists e2. split; [exact He2|].
  rewrite Ht2, Ht1.
  set (fid := String.append project_id (String.append ":" file_path)).
  rewrite List.filter_app, filter_filter_same. simpl.
  fold fid. rewrite String.eqb_refl. simpl. rewrite app_nil_r.
  unfold rows_of_key. rewrite List.filter_app. simpl.
  rewrite !String.eqb_refl. simpl.
  rewrite (filter_none _ (List.filter _ (code_embeddings vs0))); [reflexivity|].
  unfold table_keys_ok in Hkeys.
  rewrite List.Forall_forall in *. intros r Hr.
  apply List.filter_In in Hr as [Hr Hne].
  specialize (Hkeys r Hr).
  destruct (String.eqb (Row.project_id r) project_id) eqn:Ep; [|reflexivity].
  destruct (String.eqb (Row.file_path r) file_path) eqn:Ef; [|reflexivity].
  apply String.eqb_eq in Ep, Ef. subst.
  fold fid in Hkeys. rewrite Hkeys, String.eqb_refl in Hne. discriminate.
Qed.

(* ===================================================================== *)
(** * Vector store: search *)
(* ===================================================================== *)

(** C8. When the embedder returns no vector for the query text,
    [search_similar_code] returns the empty list (it returns: the model's
    function is total, as the code's outer handler makes it), and the
    table is not touched. *)
Theorem search_similar_code_embedding_failure
  (E : environment) (vs : VectorService) (query : string)
  (project_id language : option string) (limit : Z) (threshold : Q) :
  fst (embed_single (embedding_service vs) query) = None ->
  fst (search_similar_code E vs query project_id language limit threshold) = []
  /\ db_log (snd (search_similar_code E vs query project_id language limit
                    threshold)) = db_log vs.
Proof.
  unfold search_similar_code.
  destruct (embed_single (embedding_service vs) query) as [emb es].
  simpl. intros ->. simpl. split; reflexivity.
Qed.

Lemma probes_app log log' : probes (log ++ log') = (probes log + probes log')%nat.
Proof. unfold probes. now rewrite List.filter_app, length_app. Qed.

(** C9, as the code has it. The service keeps no record of the probe of
    initialization: in whatever state it is, every query that obtained a
    query vector runs the probe on its own connection. When that probe
    fails the call returns the results of the fallback. When it succeeds
    the call runs the accelerated statement and returns its results; it
    returns those of the fallback when the statement raises
    [sqlite3.OperationalError], and the empty list on any other
    exception. Every upsert that obtained a vector runs the probe too. *)
Theorem probe_is_repeated_on_every_call
  (E : environment) (vs : VectorService) (query : string)
  (project_id language : option string) (limit : Z) (threshold : Q)
  (q : embedding) :
  fst (embed_single (embedding_service vs) query) = Some q ->
  q <> [] ->
  let out := search_similar_code E vs query project_id language limit
               threshold in
  probes (db_log (snd out)) = S (probes (db_log vs))
  /\ (load_extension E "vec0" = false ->
      fst out = _fallback_similarity_search (code_embeddings vs) q project_id
                  language limit threshold
      /\ db_log (snd out)
         = db_log vs ++ [LoadExtension "vec0" false; FallbackQuery])
  /\ (load_extension E "vec0" = true ->
      match accelerated_search (code_embeddings vs) q project_id language
              limit threshold with
      | Completed results =>
          fst out = results
          /\ db_log (snd out)
             = db_log vs ++ [LoadExtension "vec0" true; VecDistanceQuery]
      | OperationalError =>
          fst out = _fallback_similarity_search (code_embeddings vs) q
                      project_id language limit threshold
          /\ db_log (snd out)
             = db_log vs ++ [LoadExtension "vec0" true; VecDistanceQuery;
                             FallbackQuery]
      | OtherException =>
          fst out = []
          /\ db_log (snd out)
             = db_log vs ++ [LoadExtension "vec0" true; VecDistanceQuery]
      end)
  /\ (forall file_path content language' project_id' metadata,
         truthy_embedding
           (fst (embed_code_snippet (embedding_service vs) content language'
                   (String.append "File: " file_path))) = true ->
         probes (db_log (snd (index_code_snippet E vs file_path content
                                language' project_id' metadata)))
         = S (probes (db_log vs))).
Proof.
  intros Hq Hne out. subst out. unfold search_similar_code.
  destruct (embed_single (embedding_service vs) query) as [emb es].
  simpl in Hq. subst emb. destruct q as [|x q]; [congruence|].
  simpl truthy_embedding. cbv iota. simpl default.
  repeat split.
  - destruct (load_extension E "vec0");
      [destruct (accelerated_search _ _ _ _ _ _)|]; simpl;
      rewrite probes_app; cbn; lia.
  - destruct (load_extension E "vec0"); [discriminate|reflexivity].
  - destruct (load_extension E "vec0"); [discriminate|reflexivity].
  - intros Hload. rewrite Hload.
    destruct (accelerated_search _ _ _ _ _ _); split; reflexivity.
  - intros file_path content language' project_id' metadata.
    unfold index_code_snippet.
    destruct (embed_code_snippet _ _ _ _) as [emb es'].
    simpl fst. intros ->. simpl. rewrite probes_app. cbn. lia.
Qed.

(** ** Order of the results *)

Lemma Qle_bool_total (x y : Q) : Qle_bool x y = true \/ Qle_bool y x = true.
Proof.
  rewrite !Qle_bool_iff.
  destruct (Qlt_le_dec x y) as [H|H]; [left; now apply Qlt_le_weak|now right].
Qed.

Lemma Qle_bool_trans (x y z : Q) :
  Qle_bool x y = true -> Qle_bool y z = true -> Qle_bool x z = true.
Proof. rewrite !Qle_bool_iff. apply Qle_trans. Qed.

Lemma by_distance_total : le_total by_distance.
Proof.
  intros [? [x|]] [? [y|]]; unfold by_distance; simpl; auto.
  apply Qle_bool_total.
Qed.

Lemma by_distance_trans : le_trans by_distance.
Proof.
  intros [? [x|]] [? [y|]] [? [z|]]; unfold by_distance; simpl; auto;
    try discriminate.
  apply Qle_bool_trans.
Qed.

Lemma by_similarity_desc_total : le_total by_similarity_desc.
Proof. intros a b. apply Qle_bool_total. Qed.

Lemma by_similarity_desc_trans : le_trans by_similarity_desc.
Proof. intros a b c H1 H2. eapply Qle_bool_trans; eauto. Qed.

Lemma sql_limit_sorted {A} (le : A -> A -> bool) n l :
  StronglySorted (fun a b => le a b = true) l ->
  StronglySorted (fun a b => le a b = true) (sql_limit n l).
Proof.
  unfold sql_limit. destruct (n <? 0); [auto|apply sorted_firstn].
Qed.

Lemma py_slice_to_sorted {A} (le : A -> A -> bool) n l :
  StronglySorted (fun a b => le a b = true) l ->
  StronglySorted (fun a b => le a b = true) (py_slice_to n l).
Proof. unfold py_slice_to. destruct (n <? 0); apply sorted_firstn. Qed.

Lemma Forall_firstn {A} (P : A -> Prop) n l :
  Forall P l -> Forall P (firstn n l).
Proof.
  rewrite !List.Forall_forall. intros H x Hx.
  apply H. exact (In_firstn_In x n l Hx).
Qed.

Lemma StronglySorted_weaken {A} (R S : A -> A -> Prop) l :
  (forall a b, R a b -> S a b) ->
  StronglySorted R l -> StronglySorted S l.
Proof.
  intros HRS. induction 1 as [|x l Hs IH Hx]; constructor; auto.
  rewrite List.Forall_forall in *. auto.
Qed.

(** Every entry the accelerated loop returns is built from a fetched
    row with a distance, and is at or above the threshold. *)
Lemma accelerated_loop_In threshold fetched : forall results h,
  accelerated_loop threshold fetched = Some results ->
  In h results ->
  exists r d,
    In (r, Some d) fetched
    /\ h = row_hit r (1 - d)%Q
    /\ Qle_bool threshold (1 - d)%Q = true.
Proof.
  induction fetched as [|[r [d|]] rest IH]; intros results h Hloop Hin;
    simpl in Hloop.
  - inversion Hloop; subst. destruct Hin.
  - destruct (accelerated_loop threshold rest) as [res'|]; [|discriminate].
    destruct (Qle_bool threshold (1 - d)%Q) eqn:Ed;
      inversion Hloop; subst; clear Hloop.
    + destruct Hin as [<-|Hin].
      * exists r, d. repeat split; auto. now left.
      * destruct (IH res' h eq_refl Hin) as (r' & d' & ? & ? & ?).
        exists r', d'. repeat split; auto. now right.
    + destruct (IH results h eq_refl Hin) as (r' & d' & ? & ? & ?).
      exists r', d'. repeat split; auto. now right.
  - discriminate.
Qed.

Lemma accelerated_loop_length threshold fetched : forall results,
  accelerated_loop threshold fetched = Some results ->
  (length results <= length fetched)%nat.
Proof.
  induction fetched as [|[r [d|]] rest IH]; intros results Hloop;
    simpl in Hloop.
  - inversion Hloop. simpl. lia.
  - destruct (accelerated_loop threshold rest) as [res'|]; [|discriminate].
    specialize (IH res' eq_refl).
    destruct (Qle_bool threshold (1 - d)%Q); inversion Hloop; subst;
      simpl; lia.
  - discriminate.
Qed.

Lemma accelerated_loop_sorted threshold fetched :
  StronglySorted (fun a b => by_distance a b = true) fetched ->
  forall results,
    accelerated_loop threshold fetched = Some results ->
    non_increasing results.
Proof.
  unfold non_increasing.
  induction 1 as [|[r [d|]] rest Hs IH Hhead]; intros results Hloop;
    simpl in Hloop.
  - inversion Hloop. constructor.
  - destruct (accelerated_loop threshold rest) as [res'|] eqn:Erest;
      [|discriminate].
    specialize (IH res' eq_refl).
    destruct (Qle_bool threshold (1 - d)%Q); inversion Hloop; subst;
      [|exact IH].
    constructor; [exact IH|].
    rewrite List.Forall_forall in *. intros h Hh.
    destruct (accelerated_loop_In threshold rest res' h Erest Hh)
      as (r' & d' & Hin & -> & _).
    specialize (Hhead _ Hin). unfold by_distance in Hhead. simpl in Hhead.
    apply Qle_bool_iff in Hhead. simpl. lra.
  - discriminate.
Qed.

Lemma select_distances_rows q rows : forall fetched,
  select_distances q rows = Some fetched ->
  map fst fetched = rows
  /\ Forall
       (fun row =>
          match snd row with
          | Some d =>
              vec_distance_cosine (Row.code_embedding (fst row)) q
              = Distance d
          | None =>
              vec_distance_cosine (Row.code_embedding (fst row)) q
              = NullDistance
          end) fetched.
Proof.
  induction rows as [|r rest IH]; intros fetched Hsel; simpl in Hsel.
  - inversion Hsel. split; constructor.
  - destruct (vec_distance_cosine (Row.code_embedding r) q) eqn:Ed;
      destruct (select_distances q rest) as [f'|]; try discriminate;
      inversion Hsel; subst; destruct (IH f' eq_refl) as [Hm Hf];
      simpl; (split; [now rewrite Hm|constructor; [exact Ed|exact Hf]]).
Qed.

Lemma accelerated_search_completed table q project_id language limit
  threshold results :
  accelerated_search table q project_id language limit threshold
  = Completed results ->
  exists fetched,
    select_distances q (List.filter (where_sql project_id language) table)
    = Some fetched
    /\ accelerated_loop threshold
         (sql_limit limit (stable_sort_by by_distance fetched))
       = Some results.
Proof.
  unfold accelerated_search. intros H.
  destruct (select_distances _ _) as [fetched|]; [|discriminate].
  exists fetched. split; [reflexivity|].
  fold by_distance in H.
  change (fun a b : Row.t * option Q => distance_le (snd a) (snd b))
    with by_distance in H.
  destruct (accelerated_loop _ _); [|discriminate]. congruence.
Qed.

Lemma accelerated_search_ordered table q project_id language limit threshold
  results :
  accelerated_search table q project_id language limit threshold
  = Completed results ->
  above threshold results /\ non_increasing results.
Proof.
  intros H. apply accelerated_search_completed in H as (fetched & _ & Hloop).
  split.
  - unfold above. rewrite List.Forall_forall. intros h Hh.
    destruct (accelerated_loop_In _ _ _ _ Hloop Hh) as (r & d & _ & -> & Hd).
    simpl. now apply Qle_bool_iff.
  - eapply accelerated_loop_sorted; [|exact Hloop].
    apply sql_limit_sorted, stable_sort_by_sorted;
      [apply by_distance_total|apply by_distance_trans].
Qed.

(** The entries the loop of the fallback returns: one for each row with
    a similarity at or above the threshold. *)
Lemma fallback_loop_In threshold q rows h :
  In h (fallback_loop threshold q rows)
  <-> exists r c,
        In r rows
        /\ np_cosine q (Row.code_embedding r) = Some c
        /\ Qle_bool threshold c = true
        /\ h = row_hit r c.
Proof.
  induction rows as [|r rest IH]; simpl.
  - split; [intros []|intros (? & ? & [] & _)].
  - destruct (np_cosine q (Row.code_embedding r)) as [c|] eqn:Ec.
    + destruct (Qle_bool threshold c) eqn:Et; simpl; rewrite IH; split.
      * intros [<-|(r' & c' & ? & ? & ? & ?)].
        -- exists r, c. auto.
        -- exists r', c'. auto.
      * intros (r' & c' & [<-|Hin] & Hc & Ht & ->).
        -- left. congruence.
        -- right. exists r', c'. auto.
      * intros (r' & c' & ? & ? & ? & ?). exists r', c'. auto.
      * intros (r' & c' & [<-|Hin] & Hc & Ht & ->).
        -- congruence.
        -- exists r', c'. auto.
    + rewrite IH. split.
      * intros (r' & c' & ? & ? & ? & ?). exists r', c'. auto.
      * intros (r' & c' & [<-|Hin] & Hc & Ht & ->).
        -- congruence.
        -- exists r', c'. auto.
Qed.

Lemma fallback_search_ordered table q project_id language limit threshold :
  above threshold
    (_fallback_similarity_search table q project_id language limit threshold)
  /\ non_increasing
       (_fallback_similarity_search table q project_id language limit
          threshold).
Proof.
  unfold _fallback_similarity_search, above, non_increasing. split.
  - assert (H : forall n (l : list Hit.t),
               Forall (fun h => (threshold <= Hit.similarity h)%Q) l ->
               Forall (fun h => (threshold <= Hit.similarity h)%Q)
                      (py_slice_to n l)).
    { intros n l Hl. unfold py_slice_to.
      destruct (n <? 0); now apply Forall_firstn. }
    apply H, stable_sort_by_Forall.
    rewrite List.Forall_forall. intros h Hh.
    apply fallback_loop_In in Hh as (r & c & _ & _ & Ht & ->).
    simpl. now apply Qle_bool_iff.
  - apply StronglySorted_weaken
      with (R := fun a b => by_similarity_desc a b = true).
    + intros a b H. apply Qle_bool_iff in H. exact H.
    + apply py_slice_to_sorted.
      apply stable_sort_by_sorted;
        [apply by_similarity_desc_total|apply by_similarity_desc_trans].
Qed.

Lemma search_similar_code_above_and_ordered E vs query project_id language limit
  threshold :
  above threshold
    (fst (search_similar_code E vs query project_id language limit threshold))
  /\ non_increasing
       (fst (search_similar_code E vs query project_id language limit
               threshold)).
Proof.
  unfold search_similar_code.
  destruct (embed_single (embedding_service vs) query) as [emb es].
  destruct (truthy_embedding emb); [|simpl; split; constructor].
  destruct (load_extension E "vec0"); simpl;
    [|apply fallback_search_ordered].
  destruct (accelerated_search _ _ _ _ _ _) as [results| |] eqn:Eacc; simpl.
  - eapply accelerated_search_ordered; eauto.
  - apply fallback_search_ordered.
  - split; constructor.
Qed.

(** C2. Whatever path a search takes, every returned entry has a
    similarity at or above the threshold, and the entries come in
    non-increasing order of similarity; the same holds of the fallback
    path called on its own. *)
Theorem search_results_above_threshold_and_ordered
  (E : environment) (vs : VectorService) (query : string)
  (project_id language : option string) (limit : Z) (threshold : Q)
  (table : list Row.t) (query_embedding : embedding) :
  (above threshold
     (fst (search_similar_code E vs query project_id language limit threshold))
   /\ non_increasing
        (fst (search_similar_code E vs query project_id language limit
                threshold)))
  /\ (above threshold
        (_fallback_similarity_search table query_embedding project_id language
           limit threshold)
      /\ non_increasing
           (_fallback_similarity_search table query_embedding project_id
              language limit threshold)).
Proof.
  split; [apply search_similar_code_above_and_ordered
        |apply fallback_search_ordered].
Qed.

(** ** The two retrieval paths *)


Lemma filter_map_comm {A B} (p : B -> bool) (f : A -> B) l :
  List.filter p (map f l) = map f (List.filter (fun x => p (f x)) l).
Proof.
  induction l as [|x l IH]; simpl; [reflexivity|].
  destruct (p (f x)); simpl; now rewrite IH.
Qed.















(* ===================================================================== *)
(** * Embedder: the cache and the number of requests *)
(* ===================================================================== *)

Lemma embed_task_cache_and_calls seen svc text :
  seen ⊆ embedding_cache svc ->
  seen ⊆ embedding_cache (snd (embed_task seen svc text))
  /\ (provider_calls svc <= provider_calls (snd (embed_task seen svc text))
      <= S (provider_calls svc))%nat.
Proof.
  intros Hsub. unfold embed_task.
  destruct (seen !! md5_hex text) as [e|] eqn:Ehit; simpl; [split; [auto|lia]|].
  unfold post_embedding.
  destruct (provider (provider_calls svc) text); simpl; (split; [|lia]); auto;
    now apply insert_subseteq_r.
Qed.

Lemma gather_cache_and_calls seen batch : forall svc,
  seen ⊆ embedding_cache svc ->
  seen ⊆ embedding_cache (snd (gather seen svc batch))
  /\ (provider_calls svc <= provider_calls (snd (gather seen svc batch))
      <= provider_calls svc + length batch)%nat
  /\ length (fst (gather seen svc batch)) = length batch.
Proof.
  induction batch as [|text rest IH]; intros svc Hsub; simpl.
  - repeat split; auto; lia.
  - destruct (embed_task_cache_and_calls seen svc text Hsub) as [Hs1 Hc1].
    destruct (embed_task seen svc text) as [r svc1]. simpl in *.
    destruct (IH svc1 Hs1) as (Hs2 & Hc2 & Hl2).
    destruct (gather seen svc1 rest) as [rs svc2]. simpl in *.
    repeat split; auto; lia.
Qed.

Lemma batch_loop_cache_and_calls cache0 texts batch_size :
  forall fuel i svc results,
    cache0 ⊆ embedding_cache svc ->
    cache0 ⊆ embedding_cache
               (snd (batch_loop fuel i batch_size texts svc results))
    /\ (provider_calls svc
        <= provider_calls (snd (batch_loop fuel i batch_size texts svc results))
        <= provider_calls svc + (length texts - i))%nat.
Proof.
  induction fuel as [|fuel IH]; intros i svc results Hsub; simpl.
  - split; [assumption|lia].
  - destruct (i <? length texts)%nat eqn:Ei; [|simpl; split; [assumption|lia]].
    apply Nat.ltb_lt in Ei.
    destruct (gather_cache_and_calls (embedding_cache svc)
                (firstn batch_size (skipn i texts)) svc (reflexivity _))
      as (Hs & Hc & _).
    rewrite length_firstn, length_skipn in Hc.
    destruct (gather (embedding_cache svc) svc
                (firstn batch_size (skipn i texts))) as [rs svc1].
    simpl in *.
    destruct (IH (i + batch_size)%nat svc1 (results ++ rs)) as [Hs' Hc'].
    { etransitivity; eassumption. }
    split; [assumption|lia].
Qed.

(** X4. [embed_single] never changes an entry that is in the cache. On
    a miss it issues one request; an answer that is not a 200 answer
    with a readable body caches nothing and gives [None], so the next
    call asks the provider again; a 200 answer is cached as it is, null
    included, and the next call returns that value without a request: a
    null answer is remembered as [None]. *)
Theorem embed_single_caches_200_answers_only
  (svc : NomicEmbeddingService) (text : string) :
  embedding_cache svc ⊆ embedding_cache (snd (embed_single svc text))
  /\ (embedding_cache svc !! md5_hex text = None ->
      provider_calls (snd (embed_single svc text)) = S (provider_calls svc)
      /\ match cached_value (provider (provider_calls svc) text) with
         | Some value =>
             fst (embed_single svc text) = value
             /\ embed_single (snd (embed_single svc text)) text
                = (value, snd (embed_single svc text))
         | None =>
             fst (embed_single svc text) = None
             /\ embedding_cache (snd (embed_single svc text))
                = embedding_cache svc
         end).
Proof.
  split.
  - apply embed_task_cache_and_calls. reflexivity.
  - unfold embed_single, embed_task. intros Hmiss. rewrite Hmiss.
    unfold post_embedding.
    destruct (provider (provider_calls svc) text); simpl;
      (split; [reflexivity|]); try (split; reflexivity);
      rewrite lookup_insert_eq; split; reflexivity.
Qed.

(** X5. However [embed_batch] returns, the entries that were in the
    cache before the call are in it afterwards, unchanged, and the call
    has issued at most one request per text. *)
Theorem embed_batch_keeps_cache_and_bounds_requests
  (svc svc' : NomicEmbeddingService) (texts : list string) (batch_size : Z)
  (results : list (option embedding)) :
  embed_batch svc texts batch_size = Return (results, svc') ->
  embedding_cache svc ⊆ embedding_cache svc'
  /\ (provider_calls svc <= provider_calls svc'
      <= provider_calls svc + length texts)%nat.
Proof.
  unfold embed_batch.
  destruct (batch_size =? 0); [discriminate|].
  destruct (batch_size <? 0).
  - intros H; inversion H; subst. split; [reflexivity|lia].
  - intros H; inversion H as [Hloop].
    pose proof (batch_loop_cache_and_calls (embedding_cache svc) texts
                  (Z.to_nat batch_size) (length texts) 0%nat svc []
                  (reflexivity _)) as [Hs Hc].
    rewrite Hloop in Hs, Hc. simpl in Hs, Hc. split; [assumption|lia].
Qed.

Lemma gather_all_cached seen svc batch :
  Forall (fun text => is_Some (seen !! md5_hex text)) batch ->
  gather seen svc batch
  = (map (fun text => default None (seen !! md5_hex text)) batch, svc).
Proof.
  induction 1 as [|text rest [e He] _ IH]; simpl; [reflexivity|].
  unfold embed_task. rewrite He, IH. reflexivity.
Qed.

Lemma batch_loop_all_cached texts batch_size svc :
  (0 < batch_size)%nat ->
  Forall (fun text => is_Some (embedding_cache svc !! md5_hex text)) texts ->
  forall fuel i results,
    (length texts - i <= fuel)%nat ->
    batch_loop fuel i batch_size texts svc results
    = (results
       ++ map (fun text =>
                 default None (embedding_cache svc !! md5_hex text))
              (skipn i texts),
       svc).
Proof.
  intros Hpos Hall.
  induction fuel as [|fuel IH]; intros i results Hfuel; simpl.
  - rewrite drop_ge by lia. simpl. now rewrite app_nil_r.
  - destruct (i <? length texts)%nat eqn:Ei.
    + rewrite gather_all_cached by now apply Forall_take, Forall_drop.
      rewrite IH by lia. rewrite <- app_assoc, <- map_app. do 3 f_equal.
      rewrite <- (take_drop batch_size (drop i texts)) at 2.
      f_equal. rewrite drop_drop. reflexivity.
    + apply Nat.ltb_ge in Ei. rewrite drop_ge by lia.
      simpl. now rewrite app_nil_r.
Qed.

(** X6. When every text of the batch is cached, [embed_batch] (with a
    batch size of at least one) returns the cached vectors in input
    order and leaves the service as it is: no request is issued. *)
Theorem embed_batch_all_cached
  (svc : NomicEmbeddingService) (texts : list string) (batch_size : Z) :
  0 < batch_size ->
  Forall (fun text => is_Some (embedding_cache svc !! md5_hex text)) texts ->
  embed_batch svc texts batch_size
  = Return (map (fun text =>
                   default None (embedding_cache svc !! md5_hex text))
                texts, svc).
Proof.
  intros Hpos Hall. unfold embed_batch.
  destruct (batch_size =? 0) eqn:E0; [lia|].
  destruct (batch_size <? 0) eqn:Eneg; [lia|].
  rewrite (batch_loop_all_cached texts (Z.to_nat batch_size) svc)
    by (try assumption; lia).
  reflexivity.
Qed.

Lemma embed_code_snippet_cache_and_calls svc code language context :
  embedding_cache svc
  ⊆ embedding_cache (snd (embed_code_snippet svc code language context))
  /\ (provider_calls svc
      <= provider_calls (snd (embed_code_snippet svc code language context))
      <= S (provider_calls svc))%nat.
Proof.
  unfold embed_code_snippet, embed_single.
  apply embed_task_cache_and_calls. reflexivity.
Qed.

Lemma embed_chunks_cache_and_calls chunks language context : forall svc,
  embedding_cache svc
  ⊆ embedding_cache (snd (embed_chunks svc chunks language context))
  /\ (provider_calls svc
      <= provider_calls (snd (embed_chunks svc chunks language context))
      <= provider_calls svc + length chunks)%nat
  /\ (length (fst (embed_chunks svc chunks language context))
      <= length chunks)%nat.
Proof.
  induction chunks as [|chunk rest IH]; intros svc; simpl.
  - repeat split; [reflexivity|lia..].
  - destruct (embed_code_snippet_cache_and_calls svc chunk language context)
      as [Hs1 Hc1].
    destruct (embed_code_snippet svc chunk language context) as [emb svc1].
    simpl in Hs1, Hc1. destruct (IH svc1) as (Hs2 & Hc2 & Hl2).
    destruct (embed_chunks svc1 rest language context) as [embs svc2].
    simpl in *. repeat split.
    + etransitivity; eassumption.
    + lia.
    + lia.
    + destruct emb as [[|x e]|]; simpl; lia.
Qed.

(** X7. The module-level [index_code_file] returns [False] for every
    file: it embeds the chunks (at most one request per chunk, cached
    entries untouched) and then fails on the call of the function
    [store_embeddings_in_db], which the repository does not define. *)
Theorem index_code_file_always_fails
  (svc : NomicEmbeddingService) (file_path content language : string) :
  fst (index_code_file svc file_path content language) = false
  /\ embedding_cache svc
     ⊆ embedding_cache (snd (index_code_file svc file_path content language))
  /\ (provider_calls svc
      <= provider_calls
           (snd (index_code_file svc file_path content language))
      <= provider_calls svc
         + length (Chunker.split_code_into_chunks content 6000))%nat.
Proof.
  unfold index_code_file.
  destruct (embed_chunks_cache_and_calls
              (Chunker.split_code_into_chunks content 6000) language
              (String.append "File: " file_path) svc) as (Hs & Hc & _).
  destruct (embed_chunks _ _ _ _) as [embs svc']. simpl in *.
  repeat split; [assumption|lia..].
Qed.

(* ===================================================================== *)
(** * Vector store: more on writes *)
(* ===================================================================== *)

Lemma index_code_snippet_table E vs file_path content language project_id
  metadata :
  let out := index_code_snippet E vs file_path content language project_id
               metadata in
  (fst out = false /\ code_embeddings (snd out) = code_embeddings vs)
  \/ (exists e,
        fst (embed_code_snippet (embedding_service vs) content language
               (String.append "File: " file_path)) = Some e
        /\ e <> []
        /\ fst out = true
        /\ code_embeddings (snd out)
           = List.filter
               (fun x => negb (String.eqb (Row.file_id x)
                                 (String.append project_id
                                    (String.append ":" file_path))))
               (code_embeddings vs)
             ++ [snippet_row E e file_path content language project_id
                   metadata]).
Proof.
  intros out.
  destruct (index_code_snippet_cases E vs file_path content language
              project_id metadata) as [(_ & H)|(e & He & Hne & Ht & Hins)];
    [left; exact H|right].
  exists e. repeat split; assumption.
Qed.


Lemma In_map_filter {A B} (f : A -> B) (p : A -> bool) l y :
  In y (map f (List.filter p l)) ->
  exists x, In x l /\ p x = true /\ f x = y.
Proof.
  intros H. apply List.in_map_iff in H as (x & <- & Hx).
  apply List.filter_In in Hx as [Hx Hp]. eauto.
Qed.

Lemma NoDup_map_filter {A B} (f : A -> B) (p : A -> bool) l :
  List.NoDup (map f l) -> List.NoDup (map f (List.filter p l)).
Proof.
  induction l as [|x l IH]; simpl; [auto|].
  intros H. apply List.NoDup_cons_iff in H as [Hx Hl].
  destruct (p x); simpl; [|auto].
  apply List.NoDup_cons; [|auto].
  intros Hin. apply Hx. apply In_map_filter in Hin as (z & Hz & _ & <-).
  now apply List.in_map.
Qed.

(** X9. The primary key is kept: if no two rows share a [file_id]
    before a call of [index_code_snippet], none do after it. *)
Theorem index_code_snippet_keeps_file_ids_unique
  (E : environment) (vs : VectorService)
  (file_path content language project_id : string)
  (metadata : option (gmap string string)) :
  table_file_ids_unique (code_embeddings vs) ->
  table_file_ids_unique
    (code_embeddings
       (snd (index_code_snippet E vs file_path content language project_id
               metadata))).
Proof.
  unfold table_file_ids_unique. rewrite !NoDup_ListNoDup. intros Hok.
  destruct (index_code_snippet_table E vs file_path content language
              project_id metadata) as [[_ ->]|(e & _ & _ & _ & ->)];
    [assumption|].
  rewrite List.map_app. simpl.
  apply List.NoDup_app; repeat split.
  - now apply NoDup_map_filter.
  - repeat constructor. intros [].
  - intros fid Hin [<-|[]].
    apply In_map_filter in Hin as (r & _ & Hne & Hfid).
    rewrite Hfid, String.eqb_refl in Hne. discriminate.
Qed.

(** X10. Whatever its outcome, a call of [index_code_snippet] for a key
    leaves the rows of every other [file_id] as they were, in their
    order. *)
Theorem index_code_snippet_keeps_other_rows
  (E : environment) (vs : VectorService)
  (file_path content language project_id : string)
  (metadata : option (gmap string string)) :
  List.filter
    (fun x => negb (String.eqb (Row.file_id x)
                      (String.append project_id (String.append ":" file_path))))
    (code_embeddings
       (snd (index_code_snippet E vs file_path content language project_id
               metadata)))
  = List.filter
      (fun x => negb (String.eqb (Row.file_id x)
                        (String.append project_id
                           (String.append ":" file_path))))
      (code_embeddings vs).
Proof.
  destruct (index_code_snippet_table E vs file_path content language
              project_id metadata) as [[_ ->]|(e & _ & _ & _ & ->)];
    [reflexivity|].
  rewrite List.filter_app, filter_filter_same. simpl.
  rewrite String.eqb_refl. simpl. now rewrite app_nil_r.
Qed.

(** X11. The [file_id] joins project and path with a colon, so two
    different keys can have the same [file_id]; a successful upsert of
    one of them then deletes the rows of the other. *)
Theorem index_code_snippet_colliding_key_is_deleted
  (E : environment) (vs vs' : VectorService)
  (file_path content language project_id : string)
  (metadata : option (gmap string string))
  (other_project other_path : string) :
  table_keys_ok (code_embeddings vs) ->
  String.append other_project (String.append ":" other_path)
  = String.append project_id (String.append ":" file_path) ->
  (other_project, other_path) <> (project_id, file_path) ->
  index_code_snippet E vs file_path content language project_id metadata
  = (true, vs') ->
  rows_of_key other_project other_path (code_embeddings vs') = [].
Proof.
  intros Hkeys Hfid Hne Hidx.
  destruct (index_code_snippet_table E vs file_path content language
              project_id metadata) as [[Hf _]|(e & _ & _ & _ & Htab)];
    rewrite Hidx in *; simpl in *; [discriminate|].
  rewrite Htab. unfold rows_of_key. rewrite List.filter_app. simpl.
  destruct (String.eqb project_id other_project) eqn:Ep;
    destruct (String.eqb file_path other_path) eqn:Ef; simpl.
  - apply String.eqb_eq in Ep, Ef. subst. congruence.
  - rewrite app_nil_r. apply filter_none.
    unfold table_keys_ok in Hkeys. rewrite List.Forall_forall in *.
    intros r Hr. apply List.filter_In in Hr as [Hr Hdiff].
    specialize (Hkeys r Hr).
    destruct (String.eqb (Row.project_id r) other_project) eqn:E1;
      [|reflexivity].
    destruct (String.eqb (Row.file_path r) other_path) eqn:E2; [|reflexivity].
    apply String.eqb_eq in E1, E2.
    rewrite Hkeys, E1, E2, Hfid, String.eqb_refl in Hdiff. discriminate.
  - rewrite app_nil_r. apply filter_none.
    unfold table_keys_ok in Hkeys. rewrite List.Forall_forall in *.
    intros r Hr. apply List.filter_In in Hr as [Hr Hdiff].
    specialize (Hkeys r Hr).
    destruct (String.eqb (Row.project_id r) other_project) eqn:E1;
      [|reflexivity].
    destruct (String.eqb (Row.file_path r) other_path) eqn:E2; [|reflexivity].
    apply String.eqb_eq in E1, E2.
    rewrite Hkeys, E1, E2, Hfid, String.eqb_refl in Hdiff. discriminate.
  - rewrite app_nil_r. apply filter_none.
    unfold table_keys_ok in Hkeys. rewrite List.Forall_forall in *.
    intros r Hr. apply List.filter_In in Hr as [Hr Hdiff].
    specialize (Hkeys r Hr).
    destruct (String.eqb (Row.project_id r) other_project) eqn:E1;
      [|reflexivity].
    destruct (String.eqb (Row.file_path r) other_path) eqn:E2; [|reflexivity].
    apply String.eqb_eq in E1, E2.
    rewrite Hkeys, E1, E2, Hfid, String.eqb_refl in Hdiff. discriminate.
Qed.

Lemma filter_all {A} (p : A -> bool) l :
  Forall (fun x => p x = true) l -> List.filter p l = l.
Proof. induction 1 as [|x l Hx _ IH]; simpl; [reflexivity|]. now rewrite Hx, IH. Qed.

(** X12. A successful upsert of a [file_id] that no row has appends one
    row and keeps all the others in place. *)
Theorem index_code_snippet_new_key_appends
  (E : environment) (vs vs' : VectorService)
  (file_path content language project_id : string)
  (metadata : option (gmap string string)) :
  Forall (fun r => Row.file_id r
                   <> String.append project_id (String.append ":" file_path))
         (code_embeddings vs) ->
  index_code_snippet E vs file_path content language project_id metadata
  = (true, vs') ->
  exists e,
    fst (embed_code_snippet (embedding_service vs) content language
           (String.append "File: " file_path)) = Some e
    /\ code_embeddings vs'
       = code_embeddings vs
         ++ [snippet_row E e file_path content language project_id metadata].
Proof.
  intros Hnew Hidx.
  destruct (index_code_snippet_table E vs file_path content language
              project_id metadata) as [[Hf _]|(e & He & _ & _ & Htab)];
    rewrite Hidx in *; simpl in *; [discriminate|].
  exists e. split; [assumption|]. rewrite Htab. f_equal.
  apply filter_all. eapply List.Forall_impl; [|exact Hnew].
  intros r Hr. simpl. apply negb_true_iff, String.eqb_neq. exact Hr.
Qed.

(* ===================================================================== *)
(** * Vector store: more on search *)
(* ===================================================================== *)




Lemma accelerated_search_length table q project_id language limit threshold
  results :
  0 <= limit ->
  accelerated_search table q project_id language limit threshold
  = Completed results ->
  (length results <= Z.to_nat limit)%nat.
Proof.
  intros Hl H. apply accelerated_search_completed in H as (fetched & _ & Hloop).
  apply accelerated_loop_length in Hloop. unfold sql_limit in Hloop.
  destruct (limit <? 0) eqn:El; [lia|].
  rewrite length_firstn in Hloop. lia.
Qed.

Lemma fallback_search_length table q project_id language limit threshold :
  0 <= limit ->
  (length (_fallback_similarity_search table q project_id language limit
             threshold)
   <= Z.to_nat limit)%nat.
Proof.
  intros Hl. unfold _fallback_similarity_search, py_slice_to.
  destruct (limit <? 0) eqn:El; [lia|].
  rewrite length_firstn. lia.
Qed.

Lemma search_similar_code_length E vs query project_id language limit
  threshold :
  0 <= limit ->
  Z.of_nat
    (length (fst (search_similar_code E vs query project_id language limit
                    threshold)))
  <= limit.
Proof.
  intros Hl. unfold search_similar_code.
  destruct (embed_single (embedding_service vs) query) as [emb es].
  destruct (truthy_embedding emb); [|simpl; lia].
  pose proof (fallback_search_length (code_embeddings vs)
                (default [] emb) project_id language limit threshold Hl).
  destruct (load_extension E "vec0"); simpl; [|lia].
  destruct (accelerated_search _ _ _ _ _ _) as [results| |] eqn:Eacc; simpl;
    [|lia|lia].
  pose proof (accelerated_search_length _ _ _ _ _ _ _ Hl Eacc). lia.
Qed.


(** X13. For a limit that is not negative, a search returns at most
    [limit] entries, on either path. *)
Theorem search_similar_code_at_most_limit
  (E : environment) (vs : VectorService) (query : string)
  (project_id language : option string) (limit : Z) (threshold : Q) :
  0 <= limit ->
  Z.of_nat
    (length (fst (search_similar_code E vs query project_id language limit
                    threshold)))
  <= limit.
Proof. apply search_similar_code_length. Qed.

Lemma In_sql_limit {A} (x : A) n l : In x (sql_limit n l) -> In x l.
Proof.
  unfold sql_limit. destruct (n <? 0); [auto|apply In_firstn_In].
Qed.

Lemma In_py_slice_to {A} (x : A) n l : In x (py_slice_to n l) -> In x l.
Proof. unfold py_slice_to. destruct (n <? 0); apply In_firstn_In. Qed.

Lemma accelerated_search_from_rows table q project_id language limit
  threshold results h :
  accelerated_search table q project_id language limit threshold
  = Completed results ->
  In h results ->
  exists r d, In r table /\ where_sql project_id language r = true
              /\ h = row_hit r (1 - d)%Q.
Proof.
  intros H Hh.
  apply accelerated_search_completed in H as (fetched & Hsel & Hloop).
  destruct (accelerated_loop_In _ _ _ _ Hloop Hh) as (r & d & Hin & -> & _).
  apply In_sql_limit, stable_sort_by_In in Hin.
  apply select_distances_rows in Hsel as [Hmap _].
  apply (List.in_map fst) in Hin. rewrite Hmap in Hin. simpl in Hin.
  apply List.filter_In in Hin as [Hin Hw].
  exists r, d. repeat split; auto.
Qed.

Lemma fallback_search_from_rows table q project_id language limit
  threshold h :
  In h (_fallback_similarity_search table q project_id language limit
          threshold) ->
  exists r c, In r table /\ where_sql project_id language r = true
              /\ h = row_hit r c.
Proof.
  unfold _fallback_similarity_search. intros H.
  apply In_py_slice_to, stable_sort_by_In in H.
  apply fallback_loop_In in H as (r & c & Hr & _ & _ & ->).
  apply List.filter_In in Hr as [Hin Hw].
  exists r, c. repeat split; auto.
Qed.

Lemma where_sql_true project_id language r :
  where_sql project_id language r = true ->
  (forall p, project_id = Some p -> p <> EmptyString -> Row.project_id r = p)
  /\ (forall l, language = Some l -> l <> EmptyString -> Row.language r = l).
Proof.
  unfold where_sql. intros H. apply andb_prop in H as [Hp Hl]. split.
  - intros p -> Hne. destruct p; [congruence|].
    simpl in Hp. now apply String.eqb_eq in Hp.
  - intros l -> Hne. destruct l; [congruence|].
    simpl in Hl. now apply String.eqb_eq in Hl.
Qed.

(** X14. Every entry a search returns is the payload of a stored row
    that passes the filters: with a non-empty [project_id] the row is of
    that project, with a non-empty [language] it is of that language. *)
Theorem search_similar_code_returns_filtered_rows
  (E : environment) (vs : VectorService) (query : string)
  (project_id language : option string) (limit : Z) (threshold : Q)
  (h : Hit.t) :
  In h (fst (search_similar_code E vs query project_id language limit
               threshold)) ->
  exists r,
    In r (code_embeddings vs)
    /\ hit_of_row h r
    /\ (forall p, project_id = Some p -> p <> EmptyString ->
                  Row.project_id r = p)
    /\ (forall l, language = Some l -> l <> EmptyString ->
                  Row.language r = l).
Proof.
  unfold search_similar_code.
  destruct (embed_single (embedding_service vs) query) as [emb es].
  destruct (truthy_embedding emb); [|simpl; intros []].
  assert (Hfb : forall h,
             In h (_fallback_similarity_search (code_embeddings vs)
                     (default [] emb) project_id language limit threshold) ->
             exists r,
               In r (code_embeddings vs)
               /\ hit_of_row h r
               /\ (forall p, project_id = Some p -> p <> EmptyString ->
                             Row.project_id r = p)
               /\ (forall l, language = Some l -> l <> EmptyString ->
                             Row.language r = l)).
  { intros h' H. apply fallback_search_from_rows in H as (r & c & Hin & Hw & ->).
    exists r. destruct (where_sql_true _ _ _ Hw).
    repeat split; auto. }
  destruct (load_extension E "vec0"); simpl; [|apply Hfb].
  destruct (accelerated_search _ _ _ _ _ _) as [results| |] eqn:Eacc; simpl;
    [|apply Hfb|intros []].
  intros H.
  destruct (accelerated_search_from_rows _ _ _ _ _ _ _ _ Eacc H)
    as (r & d & Hin & Hw & ->).
  exists r. destruct (where_sql_true _ _ _ Hw).
  repeat split; auto.
Qed.










(** X17. A search never writes to the table, never changes a cached
    entry, and issues at most one request. *)
Theorem search_similar_code_is_read_only
  (E : environment) (vs : VectorService) (query : string)
  (project_id language : option string) (limit : Z) (threshold : Q) :
  let vs' := snd (search_similar_code E vs query project_id language limit
                    threshold) in
  code_embeddings vs' = code_embeddings vs
  /\ embedding_cache (embedding_service vs)
     ⊆ embedding_cache (embedding_service vs')
  /\ (provider_calls (embedding_service vs)
      <= provider_calls (embedding_service vs')
      <= S (provider_calls (embedding_service vs)))%nat.
Proof.
  unfold search_similar_code.
  pose proof (embed_task_cache_and_calls
                (embedding_cache (embedding_service vs))
                (embedding_service vs) query (reflexivity _)) as [Hs Hc].
  fold (embed_single (embedding_service vs) query) in Hs, Hc.
  destruct (embed_single (embedding_service vs) query) as [emb es].
  simpl in Hs, Hc.
  destruct (truthy_embedding emb);
    [destruct (load_extension E "vec0");
     [destruct (accelerated_search _ _ _ _ _ _)|]|];
    simpl; repeat split; auto; lia.
Qed.

(* ===================================================================== *)
(** * Vector store: statistics and deletion *)
(* ===================================================================== *)

Lemma filter_project_after_delete (p p' : string) table :
  List.filter (fun r => String.eqb (Row.project_id r) p')
    (List.filter (fun r => negb (String.eqb (Row.project_id r) p)) table)
  = if String.eqb p' p then []
    else List.filter (fun r => String.eqb (Row.project_id r) p') table.
Proof.
  induction table as [|r t IH]; simpl; [now destruct (String.eqb p' p)|].
  destruct (String.eqb (Row.project_id r) p) eqn:Ep; simpl.
  - rewrite IH. destruct (String.eqb p' p) eqn:Epp; [reflexivity|].
    apply String.eqb_eq in Ep. rewrite Ep, String.eqb_sym, Epp. reflexivity.
  - rewrite IH. destruct (String.eqb p' p) eqn:Epp.
    + apply String.eqb_eq in Epp. subst p'. rewrite Ep. reflexivity.
    + reflexivity.
Qed.

(** X18. After [delete_project_embeddings] the statistics of the project
    are those of a project without rows: no file, no language, no
    character, no date, status ["empty"]. *)
Theorem delete_project_then_stats_are_empty
  (vs : VectorService) (project_id : string) :
  fst (delete_project_embeddings vs project_id) = true
  /\ get_project_stats (snd (delete_project_embeddings vs project_id))
       project_id
     = ProjectStats.mk 0 0 0 None "empty".
Proof.
  split; [reflexivity|].
  unfold get_project_stats, delete_project_embeddings. simpl.
  rewrite filter_project_after_delete, String.eqb_refl. reflexivity.
Qed.

(** X19. Deleting a project leaves the statistics of every other project
    as they were, and the embedder with its cache untouched. *)
Theorem delete_project_keeps_other_projects
  (vs : VectorService) (project_id other : string) :
  other <> project_id ->
  get_project_stats (snd (delete_project_embeddings vs project_id)) other
  = get_project_stats vs other
  /\ embedding_service (snd (delete_project_embeddings vs project_id))
     = embedding_service vs.
Proof.
  intros Hne. split; [|reflexivity].
  unfold get_project_stats, delete_project_embeddings. simpl.
  rewrite filter_project_after_delete.
  apply String.eqb_neq in Hne. rewrite Hne. reflexivity.
Qed.

Lemma sql_max_upper (values : list Z) x :
  In x values -> exists m, sql_max values = Some m /\ x <= m.
Proof.
  destruct values as [|v rest]; [intros []|]. simpl.
  intros Hin. eexists; split; [reflexivity|].
  revert v Hin. induction rest as [|w rest IH]; intros v Hin; simpl.
  - destruct Hin as [->|[]]. lia.
  - destruct Hin as [->|[->|Hin]].
    + specialize (IH x (or_introl eq_refl)). lia.
    + lia.
    + specialize (IH v (or_intror Hin)). lia.
Qed.

(** X20. After a successful [index_code_snippet] the statistics of its
    project count at least one file, have the status ["completed"], and
    date the last indexing at the time of the call or later. *)
Theorem index_then_stats_are_completed
  (E : environment) (vs vs' : VectorService)
  (file_path content language project_id : string)
  (metadata : option (gmap string string)) :
  index_code_snippet E vs file_path content language project_id metadata
  = (true, vs') ->
  (1 <= ProjectStats.total_files (get_project_stats vs' project_id))%nat
  /\ ProjectStats.status (get_project_stats vs' project_id) = "completed"
  /\ exists m,
       ProjectStats.last_indexed (get_project_stats vs' project_id) = Some m
       /\ timestamp E <= m.
Proof.
  intros Hidx.
  destruct (index_code_snippet_table E vs file_path content language
              project_id metadata) as [[Hf _]|(e & _ & _ & _ & Htab)];
    rewrite Hidx in *; simpl in *; [discriminate|].
  set (r := snippet_row E e file_path content language project_id metadata)
    in *.
  assert (Hin : In r (List.filter
                        (fun x => String.eqb (Row.project_id x) project_id)
                        (code_embeddings vs'))).
  { apply List.filter_In. split.
    - rewrite Htab. apply List.in_or_app. right. now left.
    - unfold r. simpl. apply String.eqb_refl. }
  unfold get_project_stats. simpl.
  destruct (List.filter _ (code_embeddings vs')) as [|r0 rows] eqn:Erows;
    [destruct Hin|].
  split; [simpl; lia|]. split; [reflexivity|].
  apply (sql_max_upper (map Row.last_modified (r0 :: rows)) (timestamp E)).
  change (timestamp E) with (Row.last_modified r).
  now apply List.in_map.
Qed.

Lemma length_remove_dups_le (l : list string) :
  (length (remove_dups l) <= length l)%nat.
Proof.
  induction l as [|x l IH]; simpl; [lia|].
  destruct (decide_rel elem_of x l); simpl; lia.
Qed.

Lemma fold_right_add_nonneg (values : list Z) :
  Forall (fun v => 0 <= v) values -> 0 <= fold_right Z.add 0 values.
Proof. induction 1; simpl; lia. Qed.

(** X21. The statistics of a project are consistent: there are no more
    languages than files, the characters are not negative, and the
    status is ["empty"] exactly when there is no file, which is exactly
    when there is no date. *)
Theorem get_project_stats_consistent
  (vs : VectorService) (project_id : string) :
  let stats := get_project_stats vs project_id in
  (ProjectStats.languages stats <= ProjectStats.total_files stats)%nat
  /\ 0 <= ProjectStats.total_chars stats
  /\ (ProjectStats.status stats = "empty"
      <-> ProjectStats.total_files stats = 0%nat)
  /\ (ProjectStats.last_indexed stats = None
      <-> ProjectStats.total_files stats = 0%nat).
Proof.
  unfold get_project_stats. simpl.
  set (rows := List.filter _ (code_embeddings vs)).
  repeat split.
  - etransitivity; [apply length_remove_dups_le|]. now rewrite length_map.
  - assert (H : 0 <= fold_right Z.add 0
                       (map (fun r => Z.of_nat (String.length (Row.source_code r)))
                            rows)).
    { apply fold_right_add_nonneg. rewrite List.Forall_forall.
      intros v Hv. apply List.in_map_iff in Hv as (r & <- & _). lia. }
    destruct rows as [|r rows']; simpl in *; [lia|].
    destruct (_ =? 0); lia.
  - destruct rows; simpl; [reflexivity|discriminate].
  - destruct rows; simpl; [reflexivity|discriminate].
  - destruct rows; simpl; [reflexivity|discriminate].
  - destruct rows; simpl; [reflexivity|discriminate].
Qed.

Lemma group_count_lookup (key : Row.t -> string) table k :
  group_count key table !! k
  = match length (List.filter (fun r => String.eqb (key r) k) table) with
    | O => None
    | S n => Some (S n)
    end.
Proof.
  induction table as [|r t IH]; simpl; [apply lookup_empty|].
  destruct (String.eqb (key r) k) eqn:Ek.
  - apply String.eqb_eq in Ek. subst k.
    rewrite lookup_insert_eq, IH. simpl.
    destruct (length _); reflexivity.
  - apply String.eqb_neq in Ek.
    rewrite lookup_insert_ne by assumption. exact IH.
Qed.

(** X22. [get_all_stats] agrees with [get_project_stats]: the count it
    gives for a project (0 when the project is not a key of the dict) is
    the number of files of that project, and a project is a key exactly
    when it has a row; the total is the number of rows. *)
Theorem get_all_stats_agrees_with_project_stats
  (vs : VectorService) (project_id : string) :
  default 0%nat (AllStats.projects (get_all_stats vs) !! project_id)
  = ProjectStats.total_files (get_project_stats vs project_id)
  /\ (AllStats.projects (get_all_stats vs) !! project_id = None
      <-> ProjectStats.total_files (get_project_stats vs project_id) = 0%nat)
  /\ AllStats.total_embeddings (get_all_stats vs)
     = length (code_embeddings vs).
Proof.
  unfold get_all_stats, get_project_stats. simpl.
  rewrite group_count_lookup.
  destruct (length _) eqn:El; simpl; repeat split; try reflexivity;
    discriminate.
Qed.

(* ===================================================================== *)
(** * Vector store: batches *)
(* ===================================================================== *)

Lemma batch_index_loop_counts clock files : forall i vs results,
  let out := fst (batch_index_loop clock i vs files results) in
  (BatchResult.successful out + BatchResult.failed out
   = BatchResult.successful results + BatchResult.failed results
     + length files)%nat
  /\ (length (BatchResult.errors out) + BatchResult.failed results
      = length (BatchResult.errors results) + BatchResult.failed out)%nat.
Proof.
  induction files as [|f rest IH]; intros i vs results; simpl.
  - split; lia.
  - destruct (index_code_snippet _ _ _ _ _ _ _) as [success vs'].
    match goal with
    | |- context [batch_index_loop clock (S i) vs' rest ?res] =>
        destruct (IH (S i) vs' res) as [H1 H2]
    end.
    destruct success; simpl in *.
    + split; lia.
    + rewrite length_app in H2. simpl in H2. split; lia.
Qed.

(** X23. [batch_index_files] accounts for every file once: the counts of
    successes and failures add up to the number of files, and there is
    one error message per failure. *)
Theorem batch_index_files_counts_every_file
  (clock : nat -> environment) (vs : VectorService)
  (files : list FileData.t) :
  let results := fst (batch_index_files clock vs files) in
  (BatchResult.successful results + BatchResult.failed results
   = length files)%nat
  /\ length (BatchResult.errors results) = BatchResult.failed results.
Proof.
  unfold batch_index_files.
  destruct (batch_index_loop_counts clock files 0%nat vs
              (BatchResult.mk 0 0 [])) as [H1 H2].
  simpl in *. split; lia.
Qed.

Lemma batch_index_loop_invariant (P : list Row.t -> Prop) clock files :
  (forall E vs file_path content language project_id metadata,
      P (code_embeddings vs) ->
      P (code_embeddings
           (snd (index_code_snippet E vs file_path content language project_id
                   metadata)))) ->
  forall i vs results,
    P (code_embeddings vs) ->
    P (code_embeddings (snd (batch_index_loop clock i vs files results))).
Proof.
  intros Hstep. induction files as [|f rest IH]; intros i vs results HP;
    simpl; [assumption|].
  specialize (Hstep (clock i) vs (FileData.file_path f) (FileData.content f)
                (FileData.language f) (FileData.project_id f)
                (default (Some ∅) (FileData.metadata f)) HP).
  destruct (index_code_snippet _ _ _ _ _ _ _) as [success vs'].
  simpl in Hstep. now apply IH.
Qed.

Lemma index_code_snippet_unique_step E vs file_path content language
  project_id metadata :
  table_file_ids_unique (code_embeddings vs) ->
  table_file_ids_unique
    (code_embeddings
       (snd (index_code_snippet E vs file_path content language project_id
               metadata))).
Proof.
  unfold table_file_ids_unique. rewrite !NoDup_ListNoDup. intros Hok.
  destruct (index_code_snippet_table E vs file_path content language
              project_id metadata) as [[_ ->]|(e & _ & _ & _ & ->)];
    [assumption|].
  rewrite List.map_app. simpl.
  apply List.NoDup_app; repeat split.
  - now apply NoDup_map_filter.
  - repeat constructor. intros [].
  - intros fid Hin [<-|[]].
    apply In_map_filter in Hin as (r & _ & Hne & Hfid).
    rewrite Hfid, String.eqb_refl in Hne. discriminate.
Qed.

(** X24. A batch keeps the keys of the table well formed: if before it
    every [file_id] is the one built from its row and no two rows share
    a [file_id], the same holds after it, whichever files failed. *)
Theorem batch_index_files_keeps_table_well_formed
  (clock : nat -> environment) (vs : VectorService)
  (files : list FileData.t) :
  table_keys_ok (code_embeddings vs) ->
  table_file_ids_unique (code_embeddings vs) ->
  let table' := code_embeddings (snd (batch_index_files clock vs files)) in
  table_keys_ok table' /\ table_file_ids_unique table'.
Proof.
  intros Hk Hu. unfold batch_index_files. split.
  - apply (batch_index_loop_invariant table_keys_ok); [|assumption].
    intros. now apply index_code_snippet_keeps_keys.
  - apply (batch_index_loop_invariant table_file_ids_unique); [|assumption].
    intros. now apply index_code_snippet_unique_step.
Qed.

(* ===================================================================== *)
(** * The search endpoint *)
(* ===================================================================== *)

Lemma search_similar_code_ordered E vs query project_id language limit
  threshold :
  above threshold
    (fst (search_similar_code E vs query project_id language limit threshold)).
Proof. apply search_similar_code_above_and_ordered. Qed.

Lemma search_code_returns get_project E vs request user_uid response activity
  vs' :
  search_code get_project E vs request user_uid
  = (HttpReturn (response, activity), vs') ->
  SearchResponse.results response
  = fst (search_similar_code E vs
           (CodeSearchRequest.query request)
           (CodeSearchRequest.project_id request)
           (CodeSearchRequest.language request)
           (py_or_int (CodeSearchRequest.limit request) 10)
           (py_or_float (CodeSearchRequest.threshold request) (7 # 10)))
  /\ SearchResponse.total response = length (SearchResponse.results response).
Proof.
  unfold search_code.
  destruct (truthy_str _ && negb _); [discriminate|].
  destruct (search_similar_code _ _ _ _ _ _ _) as [results vs1].
  intros H. inversion H; subst. simpl. split; reflexivity.
Qed.

(** X25. The endpoint replaces a threshold that is absent or zero by
    0.7 ([request.threshold or 0.7]): a request that asks for the
    threshold 0 gets only entries of similarity 0.7 or more. *)
Theorem search_code_zero_threshold_is_default
  (get_project : string -> string -> bool) (E : environment)
  (vs vs' : VectorService) (request : CodeSearchRequest.t)
  (user_uid : string) (response : SearchResponse.t)
  (activity : option search_activity) :
  (CodeSearchRequest.threshold request = None
   \/ exists t, CodeSearchRequest.threshold request = Some t /\ (t == 0)%Q) ->
  search_code get_project E vs request user_uid
  = (HttpReturn (response, activity), vs') ->
  above (7 # 10) (SearchResponse.results response).
Proof.
  intros Hthr Hret.
  apply search_code_returns in Hret as [-> _].
  assert (Hd : py_or_float (CodeSearchRequest.threshold request) (7 # 10)
               = (7 # 10)%Q).
  { destruct Hthr as [->|(t & -> & Ht)]; [reflexivity|].
    simpl. apply Qeq_bool_iff in Ht. now rewrite Ht. }
  rewrite Hd. apply search_similar_code_ordered.
Qed.

(** X26. The endpoint replaces a limit that is absent or zero by 10
    ([request.limit or 10]): such a request gets at most ten entries,
    and the total it reports is the number of entries. *)
Theorem search_code_zero_limit_is_default
  (get_project : string -> string -> bool) (E : environment)
  (vs vs' : VectorService) (request : CodeSearchRequest.t)
  (user_uid : string) (response : SearchResponse.t)
  (activity : option search_activity) :
  (CodeSearchRequest.limit request = None
   \/ CodeSearchRequest.limit request = Some 0) ->
  search_code get_project E vs request user_uid
  = (HttpReturn (response, activity), vs') ->
  (length (SearchResponse.results response) <= 10)%nat
  /\ SearchResponse.total response = length (SearchResponse.results response).
Proof.
  intros Hlim Hret.
  apply search_code_returns in Hret as [Hres Htot].
  split; [|exact Htot]. rewrite Hres.
  assert (Hd : py_or_int (CodeSearchRequest.limit request) 10 = 10)
    by (destruct Hlim as [->| ->]; reflexivity).
  rewrite Hd.
  pose proof (search_similar_code_length E vs
                (CodeSearchRequest.query request)
                (CodeSearchRequest.project_id request)
                (CodeSearchRequest.language request) 10
                (py_or_float (CodeSearchRequest.threshold request) (7 # 10))
                ltac:(lia)).
  lia.
Qed.

End Services.

(* ===================================================================== *)
(** * Chunker: properties *)
(* ===================================================================== *)

Module ChunkerProofs.
Import Chunker.

Lemma split_nl_nonempty s : split_nl s <> [].
Proof.
  destruct s as [|c s]; simpl; [discriminate|].
  destruct (Ascii.eqb c newline); [discriminate|].
  destruct (split_nl s); discriminate.
Qed.

(** Joining the pieces of a split gives the text back. *)
Lemma join_split_nl s : join_nl (split_nl s) = s.
Proof.
  induction s as [|c s IH]; simpl; [reflexivity|].
  pose proof (split_nl_nonempty s) as Hne.
  destruct (Ascii.eqb c newline) eqn:Ec.
  - apply Ascii.eqb_eq in Ec; subst c.
    destruct (split_nl s) as [|l ls]; [congruence|].
    rewrite <- IH. reflexivity.
  - destruct (split_nl s) as [|l ls]; [congruence|].
    rewrite <- IH. simpl. destruct ls; reflexivity.
Qed.

Lemma append_cons x a b :
  String.append (String x a) b = String x (String.append a b).
Proof. reflexivity. Qed.

Lemma append_assoc_nl a b c :
  String.append (String.append a (String newline b)) c
  = String.append a (String newline (String.append b c)).
Proof.
  induction a as [|x a IH]; [reflexivity|].
  rewrite !append_cons. f_equal. exact IH.
Qed.

(** Joining two non-empty groups one after the other. *)
Lemma join_nl_app (a b : list string) :
  a <> [] -> b <> [] ->
  join_nl (a ++ b) = String.append (join_nl a) (String newline (join_nl b)).
Proof.
  induction a as [|x a IH]; intros Ha Hb; [congruence|].
  destruct a as [|y a].
  - simpl. destruct b; [congruence|reflexivity].
  - change ((x :: y :: a) ++ b) with (x :: ((y :: a) ++ b)).
    change (join_nl (x :: (y :: a) ++ b))
      with (String.append x (String newline (join_nl ((y :: a) ++ b)))).
    rewrite IH by congruence.
    change (join_nl (x :: y :: a))
      with (String.append x (String newline (join_nl (y :: a)))).
    now rewrite append_assoc_nl.
Qed.

(** Joining the joined groups is joining all the lines. *)
Lemma join_nl_groups (groups : list (list string)) :
  Forall (fun g => g <> []) groups ->
  join_nl (map join_nl groups) = join_nl (concat groups).
Proof.
  induction 1 as [|g gs Hg Hgs IH]; [reflexivity|].
  destruct gs as [|g' gs].
  - simpl. now rewrite app_nil_r.
  - change (concat (g :: g' :: gs)) with (g ++ concat (g' :: gs)).
    rewrite join_nl_app; [| assumption |].
    + rewrite <- IH. reflexivity.
    + inversion Hgs; subst. simpl. destruct g'; [congruence|discriminate].
Qed.

(** The loop invariant: what has been flushed since the state [st] is a
    sequence of non-empty groups of whole lines, and together with the
    current chunk they are the lines seen, in order. *)
Lemma chunk_loop_groups max_tokens lines st :
  exists groups,
    chunks (chunk_loop max_tokens st lines) = chunks st ++ map join_nl groups
    /\ Forall (fun g => g <> []) groups
    /\ concat groups ++ current_chunk (chunk_loop max_tokens st lines)
       = current_chunk st ++ lines
    /\ (current_chunk st ++ lines <> [] ->
        current_chunk (chunk_loop max_tokens st lines) <> []).
Proof.
  revert st. induction lines as [|line rest IH]; intros st.
  - exists []. simpl. rewrite !app_nil_r. repeat split; auto.
  - simpl. destruct (IH (chunk_step max_tokens st line)) as (gs & Hc & Hne & Hcat & Hcur).
    unfold chunk_step in *.
    destruct ((current_length st + line_tokens line >? max_tokens)
              && truthy_list (current_chunk st)) eqn:Eflush; simpl in *.
    + apply andb_prop in Eflush as [_ Ht].
      exists (current_chunk st :: gs). simpl.
      rewrite Hc, <- app_assoc. simpl. repeat split.
      * constructor; [|assumption].
        destruct (current_chunk st); [discriminate|congruence].
      * rewrite <- app_assoc, Hcat. reflexivity.
      * intros _. apply Hcur. discriminate.
    + exists gs. rewrite Hc, Hcat, <- app_assoc. simpl. repeat split; auto.
      intros _. apply Hcur. destruct (current_chunk st); discriminate.
Qed.

(** The chunks are the joins of consecutive non-empty groups of lines. *)
Lemma split_code_into_chunks_groups code max_tokens :
  exists groups,
    split_code_into_chunks code max_tokens = map join_nl groups
    /\ Forall (fun g => g <> []) groups
    /\ concat groups = split_nl code.
Proof.
  unfold split_code_into_chunks.
  destruct (chunk_loop_groups max_tokens (split_nl code)
              {| chunks := []; current_chunk := []; current_length := 0 |})
    as (gs & Hc & Hne & Hcat & Hcur).
  simpl in *.
  specialize (Hcur (split_nl_nonempty code)).
  destruct (current_chunk _) as [|l cur] eqn:Ecur; [congruence|].
  simpl. exists (gs ++ [l :: cur]). rewrite Hc, map_app. simpl.
  repeat split.
  - apply Forall_app; split; [assumption|]. constructor; [discriminate|constructor].
  - rewrite concat_app. simpl. rewrite app_nil_r. exact Hcat.
Qed.

(** C3. For every text and every budget (positive or not), joining the
    returned chunks with newlines gives the text back, and the chunks are
    the joins of consecutive non-empty groups of whole lines of the text:
    the order is kept and no line is cut. *)
Theorem split_code_into_chunks_lossless (code : string) (max_tokens : Z) :
  join_nl (split_code_into_chunks code max_tokens) = code
  /\ exists groups : list (list string),
       Forall (fun g => g <> []) groups
       /\ concat groups = split_nl code
       /\ split_code_into_chunks code max_tokens = map join_nl groups.
Proof.
  destruct (split_code_into_chunks_groups code max_tokens)
    as (gs & Hs & Hne & Hcat).
  split.
  - rewrite Hs, join_nl_groups by assumption.
    rewrite Hcat. apply join_split_nl.
  - exists gs. auto.
Qed.

(** C10. The chunk list is never empty, and the empty text gives the one
    empty chunk. *)
Theorem split_code_into_chunks_nonempty (code : string) (max_tokens : Z) :
  split_code_into_chunks code max_tokens <> []
  /\ split_code_into_chunks EmptyString max_tokens = [EmptyString].
Proof.
  split.
  - destruct (split_code_into_chunks_groups code max_tokens)
      as (gs & Hs & Hne & Hcat).
    rewrite Hs. destruct gs; [|discriminate].
    simpl in Hcat. exfalso. eapply split_nl_nonempty; eauto.
  - unfold split_code_into_chunks. simpl.
    unfold chunk_step. simpl. rewrite andb_false_r. reflexivity.
Qed.

End ChunkerProofs.

(* ===================================================================== *)
(** * Chunker: the budget *)
(* ===================================================================== *)

Module ChunkerBudget.
Import Chunker ChunkerProofs.

Lemma line_tokens_nonneg line : 0 <= line_tokens line.
Proof. unfold line_tokens. apply Z.div_pos; lia. Qed.

Lemma group_tokens_nonneg lines : 0 <= group_tokens lines.
Proof.
  induction lines as [|l ls IH]; simpl; [lia|].
  pose proof (line_tokens_nonneg l). lia.
Qed.

Lemma group_tokens_app a b :
  group_tokens (a ++ b) = group_tokens a + group_tokens b.
Proof. induction a as [|x a IH]; simpl; lia. Qed.

(** The loop invariant with the token counts: the counter is the count
    of the current chunk; every flushed group is within the budget or a
    single line; a flush happens only where the next line did not fit. *)
Lemma chunk_loop_greedy max_tokens lines : forall st,
  current_length st = group_tokens (current_chunk st) ->
  (current_chunk st = [] \/ within_budget max_tokens (current_chunk st)) ->
  exists gs,
    chunks (chunk_loop max_tokens st lines) = chunks st ++ map join_nl gs
    /\ concat gs ++ current_chunk (chunk_loop max_tokens st lines)
       = current_chunk st ++ lines
    /\ Forall (fun g => g <> [] /\ within_budget max_tokens g) gs
    /\ (current_chunk (chunk_loop max_tokens st lines) = []
        \/ within_budget max_tokens
             (current_chunk (chunk_loop max_tokens st lines)))
    /\ (exists tail,
          hd [] (gs ++ [current_chunk (chunk_loop max_tokens st lines)])
          = current_chunk st ++ tail)
    /\ greedy max_tokens
         (gs ++ [current_chunk (chunk_loop max_tokens st lines)]).
Proof.
  induction lines as [|line rest IH]; intros st Hlen Hcur.
  - exists []. simpl. rewrite !app_nil_r. repeat split; auto.
    exists []. now rewrite app_nil_r.
  - simpl. unfold chunk_step at 1 2 3 4 5 6.
    destruct ((current_length st + line_tokens line >? max_tokens)
              && truthy_list (current_chunk st)) eqn:Eflush.
    + apply andb_prop in Eflush as [Egt Ht].
      apply Z.gtb_lt in Egt.
      destruct (IH {| chunks := chunks st ++ [join_nl (current_chunk st)];
                      current_chunk := [line];
                      current_length := line_tokens line |})
        as (gs & Hc & Hcat & Hgood & Hcur' & (tail & Hhd) & Hgreedy).
      { simpl. lia. }
      { right. right. reflexivity. }
      simpl in Hc, Hcat, Hhd.
      exists (current_chunk st :: gs). simpl.
      rewrite Hc, <- !app_assoc. simpl. repeat split.
      * now rewrite Hcat.
      * constructor; [|assumption]. split.
        -- destruct (current_chunk st); [discriminate|congruence].
        -- destruct Hcur as [Hcur|Hcur]; [|exact Hcur].
           rewrite Hcur in Ht. discriminate.
      * assumption.
      * exists []. now rewrite app_nil_r.
      * destruct (gs ++ [current_chunk _]) as [|g' rest'] eqn:Eall.
        -- destruct gs; discriminate.
        -- simpl in Hhd. subst g'. lia.
      * assumption.
    + assert (Hwf1 : current_length st + line_tokens line
                     = group_tokens (current_chunk st ++ [line])).
      { rewrite group_tokens_app. simpl. lia. }
      assert (Hcur1 : within_budget max_tokens (current_chunk st ++ [line])).
      { apply andb_false_iff in Eflush as [Egt|Ht].
        - left. rewrite <- Hwf1.
          destruct (Z.gtb_spec (current_length st + line_tokens line)
                      max_tokens); [discriminate|lia].
        - right. destruct (current_chunk st); [reflexivity|discriminate]. }
      destruct (IH {| chunks := chunks st;
                      current_chunk := current_chunk st ++ [line];
                      current_length := current_length st + line_tokens line |})
        as (gs & Hc & Hcat & Hgood & Hcur' & (tail & Hhd) & Hgreedy).
      { exact Hwf1. }
      { right. exact Hcur1. }
      simpl in Hc, Hcat, Hhd.
      exists gs. rewrite Hc, Hcat, <- app_assoc. simpl. repeat split; auto.
      exists (line :: tail). rewrite Hhd, <- app_assoc. reflexivity.
Qed.

(** The chunks as groups of lines, with the budget and the greedy cut. *)
Lemma split_code_into_chunks_greedy code max_tokens :
  exists groups,
    split_code_into_chunks code max_tokens = map join_nl groups
    /\ concat groups = split_nl code
    /\ Forall (fun g => g <> [] /\ within_budget max_tokens g) groups
    /\ greedy max_tokens groups.
Proof.
  unfold split_code_into_chunks.
  destruct (chunk_loop_greedy max_tokens (split_nl code)
              {| chunks := []; current_chunk := []; current_length := 0 |})
    as (gs & Hc & Hcat & Hgood & Hcur & _ & Hgreedy);
    [reflexivity|now left|].
  destruct (chunk_loop_groups max_tokens (split_nl code)
              {| chunks := []; current_chunk := []; current_length := 0 |})
    as (_ & _ & _ & _ & Hne).
  simpl in *. specialize (Hne (split_nl_nonempty code)).
  destruct (current_chunk _) as [|l cur] eqn:Ecur; [congruence|].
  simpl. exists (gs ++ [l :: cur]). rewrite Hc, map_app. simpl.
  repeat split.
  - rewrite concat_app. simpl. rewrite app_nil_r. exact Hcat.
  - apply Forall_app. split; [assumption|].
    constructor; [|constructor]. split; [discriminate|].
    destruct Hcur as [Hcur|Hcur]; [discriminate|exact Hcur].
  - exact Hgreedy.
Qed.

(** X1. Every chunk holds whole lines whose estimated tokens
    ([len(line) // 4], summed) are within [max_tokens], unless the chunk
    is a single line. *)
Theorem split_code_into_chunks_within_budget (code : string) (max_tokens : Z) :
  exists groups : list (list string),
    split_code_into_chunks code max_tokens = map join_nl groups
    /\ concat groups = split_nl code
    /\ Forall (fun g => group_tokens g <= max_tokens \/ length g = 1%nat)
              groups.
Proof.
  destruct (split_code_into_chunks_greedy code max_tokens)
    as (gs & Hs & Hcat & Hgood & _).
  exists gs. repeat split; [assumption..|].
  eapply List.Forall_impl; [|exact Hgood]. intros g [_ Hg]. exact Hg.
Qed.

(** X2. A new chunk is started only where the next line did not fit:
    for two chunks that follow each other, the tokens of the first plus
    those of the first line of the second exceed [max_tokens]. *)
Theorem split_code_into_chunks_cuts_only_when_full
  (code : string) (max_tokens : Z) :
  exists groups : list (list string),
    split_code_into_chunks code max_tokens = map join_nl groups
    /\ concat groups = split_nl code
    /\ forall (i : nat) (g : list string) (line : string) (rest : list string),
         groups !! i = Some g ->
         groups !! S i = Some (line :: rest) ->
         max_tokens < group_tokens g + line_tokens line.
Proof.
  destruct (split_code_into_chunks_greedy code max_tokens)
    as (gs & Hs & Hcat & _ & Hgreedy).
  exists gs. repeat split; [assumption..|].
  clear Hs Hcat. induction gs as [|g0 gs IH]; intros i g line rest Hi HSi.
  - discriminate.
  - destruct Hgreedy as [Hfirst Hrest]. destruct i as [|i].
    + simpl in Hi, HSi. inversion Hi; subst g0.
      destruct gs as [|g1 gs]; [discriminate|].
      simpl in HSi. inversion HSi; subst g1. exact Hfirst.
    + simpl in Hi. eapply IH; eauto.
Qed.

(** X3. A text whose lines fit together in the budget is returned as one
    chunk, the text itself. *)
Theorem split_code_into_chunks_fits (code : string) (max_tokens : Z) :
  group_tokens (split_nl code) <= max_tokens ->
  split_code_into_chunks code max_tokens = [code].
Proof.
  intros Hfit.
  destruct (split_code_into_chunks_greedy code max_tokens)
    as (gs & Hs & Hcat & Hgood & Hgreedy).
  rewrite Hs. destruct gs as [|g1 [|g2 gs]].
  - simpl in Hcat. exfalso. eapply split_nl_nonempty; eauto.
  - simpl in *. rewrite app_nil_r in Hcat. subst g1.
    now rewrite join_split_nl.
  - exfalso. destruct Hgreedy as [Hfirst _].
    inversion Hgood as [|? ? _ Hgood']; subst.
    inversion Hgood' as [|? ? [Hne2 _] _]; subst.
    destruct g2 as [|line rest]; [congruence|].
    rewrite <- Hcat in Hfit. simpl in Hfit.
    rewrite !group_tokens_app in Hfit. simpl in Hfit.
    pose proof (group_tokens_nonneg (rest ++ concat gs)). lia.
Qed.

End ChunkerBudget.


(* ===================================================================== *)
(** * The statements at concrete inputs *)
(* ===================================================================== *)


(** The service after one successful request for ["def f(): pass"]. *)
Local Abbreviation service_after_first_call :=
  (mkEmbeddingService (<["def f(): pass" := Some (unit_vector 0)]> ∅) 1).

(** A fresh vector service over an empty table, and the services after
    one and after two upserts of the key [("p1", "a.py")]. *)
Local Abbreviation empty_store := (init env_without_extension []).

Local Abbreviation store_after_first_upsert :=
  (snd (index_code_snippet hash_stub provider_ok env_without_extension
          empty_store "a.py" "def f(): pass" "python" "p1" None)).

Local Abbreviation store_after_second_upsert :=
  (snd (index_code_snippet hash_stub provider_ok env_with_extension
          store_after_first_upsert "a.py" "def f(): return 2" "python" "p1"
          (Some {["function_name" := "f"]}))).

Local Abbreviation store_of_two_rows := (init env_without_extension two_rows).

(** A first call that misses, then the same call again: one request. *)
Lemma embed_single_second_call_witness :
  embed_single hash_stub provider_ok service_after_first_call "def f(): pass"
  = (Some (unit_vector 0), service_after_first_call)
  /\ provider_calls
       (snd (embed_single hash_stub provider_ok service_after_first_call
               "def f(): pass"))
     = provider_calls service_after_first_call
  /\ (embedding_cache fresh_service !! hash_stub "def f(): pass" = None ->
      provider_calls
        (snd (embed_single hash_stub provider_ok service_after_first_call
                "def f(): pass"))
      = S (provider_calls fresh_service)).
Proof.
  apply (embed_single_second_call_is_cache_hit hash_stub provider_ok
           fresh_service service_after_first_call "def f(): pass"
           (unit_vector 0)).
  reflexivity.
Defined.


(** The same batch, evaluated: exactly the second entry is the failure
    marker, the others are the vectors of their own requests. *)
Lemma embed_batch_second_request_fails :
  match embed_batch hash_stub provider_second_fails fresh_service
          ["a"; "b"; "c"] 10 with
  | Return (results, _) => results
  | Raise _ => []
  end
  = [Some (unit_vector 0); None; Some (unit_vector 2)].
Proof. vm_compute. reflexivity. Qed.


(** C4, at the input where the code departs from it. The provider
    answers with a vector of two components. The call returns [True],
    the row is written with the two components as they are, the table no
    longer holds vectors of 384 components only, and a search returns
    the row. *)
Lemma index_code_snippet_stores_two_components :
  let out := index_code_snippet hash_stub provider_short env_without_extension
               (init env_without_extension []) "a.py" "def f(): pass"
               "python" "p1" None in
  length [1%Q; 0%Q] <> vec0_dimension
  /\ fst out = true
  /\ map Row.code_embedding (code_embeddings (snd out)) = [[1%Q; 0%Q]]
  /\ table_dimension_ok (code_embeddings (init env_without_extension []))
  /\ ~ table_dimension_ok (code_embeddings (snd out))
  /\ map Hit.file_path
       (fst (search_similar_code hash_stub provider_short cosine_stub
               distance_stub env_without_extension (snd out)
               "def f" (Some "p1") None 5 (7 # 10)))
     = ["a.py"].
Proof.
  repeat split.
  - vm_compute. discriminate.
  - constructor.
  - intros H. inversion H as [|r t Hlen _]; subst. vm_compute in Hlen.
    discriminate.
Qed.

(** Two upserts of [("p1", "a.py")] with different contents, vectors and
    metadata: one row, the second. *)
Lemma index_code_snippet_second_write_replaces_witness :
  exists e2,
    fst (embed_code_snippet hash_stub provider_ok
           (embedding_service store_after_first_upsert)
           "def f(): return 2" "python" (String.append "File: " "a.py"))
    = Some e2
    /\ rows_of_key "p1" "a.py" (code_embeddings store_after_second_upsert)
       = [snippet_row env_with_extension e2 "a.py" "def f(): return 2"
            "python" "p1" (Some {["function_name" := "f"]})].
Proof.
  apply (index_code_snippet_second_write_replaces hash_stub provider_ok
           env_without_extension env_with_extension empty_store
           store_after_first_upsert store_after_second_upsert
           "a.py" "p1" "def f(): pass" "python" "def f(): return 2" "python"
           None (Some {["function_name" := "f"]})).
  - constructor.
  - vm_compute. reflexivity.
  - vm_compute. reflexivity.
Defined.

(** The provider is down: the search returns the empty list. *)
Lemma search_similar_code_embedding_failure_witness :
  fst (search_similar_code hash_stub provider_down cosine_stub distance_stub
         env_with_extension (init env_with_extension two_rows)
         "function definition" (Some "p1") None 5 0%Q) = []
  /\ db_log
       (snd (search_similar_code hash_stub provider_down cosine_stub
               distance_stub env_with_extension
               (init env_with_extension two_rows)
               "function definition" (Some "p1") None 5 0%Q))
     = db_log (init env_with_extension two_rows).
Proof.
  apply (search_similar_code_embedding_failure hash_stub provider_down
           cosine_stub distance_stub env_with_extension
           (init env_with_extension two_rows)
           "function definition" (Some "p1") None 5 0%Q).
  reflexivity.
Defined.

(** A search on a service whose extension could not be loaded at
    initialization. *)
Lemma probe_is_repeated_on_every_call_witness :
  let out := search_similar_code hash_stub provider_ok cosine_stub
               distance_stub env_without_extension store_of_two_rows
               "function definition" (Some "p1") None 5 0%Q in
  probes (db_log (snd out)) = S (probes (db_log store_of_two_rows))
  /\ (load_extension env_without_extension "vec0" = false ->
      fst out = _fallback_similarity_search cosine_stub
                  (code_embeddings store_of_two_rows) (unit_vector 0)
                  (Some "p1") None 5 0%Q
      /\ db_log (snd out)
         = db_log store_of_two_rows
           ++ [LoadExtension "vec0" false; FallbackQuery])
  /\ (load_extension env_without_extension "vec0" = true ->
      match accelerated_search distance_stub
              (code_embeddings store_of_two_rows) (unit_vector 0)
              (Some "p1") None 5 0%Q with
      | Completed results =>
          fst out = results
          /\ db_log (snd out)
             = db_log store_of_two_rows
               ++ [LoadExtension "vec0" true; VecDistanceQuery]
      | OperationalError =>
          fst out = _fallback_similarity_search cosine_stub
                      (code_embeddings store_of_two_rows) (unit_vector 0)
                      (Some "p1") None 5 0%Q
          /\ db_log (snd out)
             = db_log store_of_two_rows
               ++ [LoadExtension "vec0" true; VecDistanceQuery;
                   FallbackQuery]
      | OtherException =>
          fst out = []
          /\ db_log (snd out)
             = db_log store_of_two_rows
               ++ [LoadExtension "vec0" true; VecDistanceQuery]
      end)
  /\ (forall file_path content language' project_id' metadata,
         truthy_embedding
           (fst (embed_code_snippet hash_stub provider_ok
                   (embedding_service store_of_two_rows) content language'
                   (String.append "File: " file_path))) = true ->
         probes (db_log (snd (index_code_snippet hash_stub provider_ok
                                env_without_extension store_of_two_rows
                                file_path content language' project_id'
                                metadata)))
         = S (probes (db_log store_of_two_rows))).
Proof.
  apply (probe_is_repeated_on_every_call hash_stub provider_ok cosine_stub
           distance_stub env_without_extension store_of_two_rows
           "function definition" (Some "p1") None 5 0%Q (unit_vector 0)).
  - reflexivity.
  - discriminate.
Defined.

(** C9 as stated fails. The extension could not be loaded at
    initialization (two attempts in the log). A later search attempts
    the load again (three attempts); and when the load succeeds by then,
    the search takes the accelerated path: with the limit [-1] it
    returns both rows, where the fallback returns one. *)
Lemma probe_is_not_run_once :
  probes (db_log store_of_two_rows) = 2%nat
  /\ probes
       (db_log
          (snd (search_similar_code hash_stub provider_ok cosine_stub
                  distance_stub env_without_extension store_of_two_rows
                  "function definition" None None (-1) 0%Q))) = 3%nat
  /\ map Hit.file_path
       (fst (search_similar_code hash_stub provider_ok cosine_stub
               distance_stub env_without_extension store_of_two_rows
               "function definition" None None (-1) 0%Q)) = ["a.py"]
  /\ map Hit.file_path
       (fst (search_similar_code hash_stub provider_ok cosine_stub
               distance_stub env_with_extension store_of_two_rows
               "function definition" None None (-1) 0%Q)) = ["a.py"; "b.py"]
  /\ db_log
       (snd (search_similar_code hash_stub provider_ok cosine_stub
               distance_stub env_with_extension store_of_two_rows
               "function definition" None None (-1) 0%Q))
     = db_log store_of_two_rows
       ++ [LoadExtension "vec0" true; VecDistanceQuery].
Proof. repeat split; vm_compute; reflexivity. Qed.


(** The same search, evaluated: both paths return the rows of cosine
    0.96 and 0.8, in that order; the similarities of the accelerated
    path are the rounded ones. *)
Lemma retrieval_paths_on_four_rows :
  accelerated_search distance_coarse four_rows plane_query (Some "p1") None 2
    (1 # 2)
  = Completed [row_hit (plane_row "w2.py" (24 # 25) (7 # 25)) (10 # 10);
               row_hit (plane_row "w4.py" (4 # 5) (3 # 5)) (8 # 10)]
  /\ map Hit.file_path
       (_fallback_similarity_search cosine_stub four_rows plane_query
          (Some "p1") None 2 (1 # 2))
     = ["w2.py"; "w4.py"].
Proof. split; vm_compute; reflexivity. Qed.


(* ===================================================================== *)
(** * The further statements at concrete inputs *)
(* ===================================================================== *)

(** Three lines of 2, 2 and 3 estimated tokens in a budget of 8. *)
Local Abbreviation three_lines :=
  (String.append "import os"
     (String Chunker.newline
        (String.append "import sys"
           (String Chunker.newline "print(os.name)")))).

Lemma split_code_into_chunks_fits_witness :
  Chunker.split_code_into_chunks three_lines 8 = [three_lines].
Proof.
  apply (ChunkerBudget.split_code_into_chunks_fits three_lines 8).
  vm_compute. discriminate.
Defined.

(** The same three lines, evaluated: one token less in the budget and
    the text is cut. *)
Lemma split_code_into_chunks_three_lines :
  Chunker.split_nl three_lines = ["import os"; "import sys"; "print(os.name)"]
  /\ map Chunker.line_tokens (Chunker.split_nl three_lines) = [2; 2; 3]
  /\ length (Chunker.split_code_into_chunks three_lines 6) = 2%nat.
Proof. repeat split. Qed.

(** A 200 answer whose embedding is null: the first call returns [None]
    and caches it, the second returns [None] without a request. *)
Lemma embed_single_null_answer_is_cached :
  let first := embed_single hash_stub provider_null fresh_service "x" in
  fst first = None
  /\ embedding_cache (snd first) !! hash_stub "x" = Some None
  /\ provider_calls (snd first) = 1%nat
  /\ embed_single hash_stub provider_null (snd first) "x" = (None, snd first).
Proof. repeat split. Qed.

Local Abbreviation three_texts := ["a"; "b"; "c"].

Local Abbreviation batch_of_three :=
  (batch_loop hash_stub provider_second_fails 3 0 10 three_texts
     fresh_service []).

Lemma embed_batch_keeps_cache_witness :
  embedding_cache fresh_service ⊆ embedding_cache (snd batch_of_three)
  /\ (provider_calls fresh_service <= provider_calls (snd batch_of_three)
      <= provider_calls fresh_service + length three_texts)%nat.
Proof.
  apply (embed_batch_keeps_cache_and_bounds_requests hash_stub
           provider_second_fails fresh_service (snd batch_of_three)
           three_texts 10 (fst batch_of_three)).
  vm_compute. reflexivity.
Defined.

(** The text cached by a first call, asked for twice in batches of one. *)
Lemma embed_batch_all_cached_witness :
  embed_batch hash_stub provider_down service_after_first_call
    ["def f(): pass"; "def f(): pass"] 1
  = Return
      (map (fun text =>
              default None
                (embedding_cache service_after_first_call !! hash_stub text))
           ["def f(): pass"; "def f(): pass"],
       service_after_first_call).
Proof.
  apply (embed_batch_all_cached hash_stub provider_down
           service_after_first_call ["def f(): pass"; "def f(): pass"] 1).
  - lia.
  - repeat constructor; eexists; reflexivity.
Defined.

(** An upsert of the stored key [("p1", "a.py")] on a table of two
    rows. *)
Local Abbreviation store_after_replacing_a :=
  (snd (index_code_snippet hash_stub provider_ok env_with_extension
          store_of_two_rows "a.py" "def f(): return 2" "python" "p1" None)).

Lemma index_code_snippet_keeps_file_ids_unique_witness :
  table_file_ids_unique (code_embeddings store_after_replacing_a).
Proof.
  apply (index_code_snippet_keeps_file_ids_unique hash_stub provider_ok
           env_with_extension store_of_two_rows "a.py" "def f(): return 2"
           "python" "p1" None).
  apply (bool_decide_unpack _). vm_compute. exact I.
Defined.

(** The same upsert, evaluated: the row of the key is replaced, the
    other row stays. *)
Lemma index_code_snippet_replaces_stored_key :
  map Row.file_id (code_embeddings store_of_two_rows) = ["p1:a.py"; "p1:b.py"]
  /\ map Row.file_id (code_embeddings store_after_replacing_a)
     = ["p1:b.py"; "p1:a.py"]
  /\ map Row.source_code (code_embeddings store_after_replacing_a)
     = ["def g(): pass"; "def f(): return 2"].
Proof. repeat split; vm_compute; reflexivity. Qed.

(** The keys [("a:b", "c")] and [("a", "b:c")] share the [file_id]
    ["a:b:c"]. *)
Local Abbreviation store_with_a_b_c :=
  (snd (index_code_snippet hash_stub provider_ok env_without_extension
          empty_store "c" "x = 1" "python" "a:b" None)).

Local Abbreviation store_after_collision :=
  (snd (index_code_snippet hash_stub provider_ok env_with_extension
          store_with_a_b_c "b:c" "y = 2" "python" "a" None)).

Lemma index_code_snippet_colliding_key_witness :
  rows_of_key "a:b" "c" (code_embeddings store_after_collision) = [].
Proof.
  apply (index_code_snippet_colliding_key_is_deleted hash_stub provider_ok
           env_with_extension store_with_a_b_c store_after_collision
           "b:c" "y = 2" "python" "a" None "a:b" "c").
  - vm_compute. repeat constructor.
  - reflexivity.
  - discriminate.
  - vm_compute. reflexivity.
Defined.

Lemma index_code_snippet_new_key_appends_witness :
  exists e,
    fst (embed_code_snippet hash_stub provider_ok
           (embedding_service empty_store) "def f(): pass" "python"
           (String.append "File: " "a.py")) = Some e
    /\ code_embeddings store_after_first_upsert
       = code_embeddings empty_store
         ++ [snippet_row env_without_extension e "a.py" "def f(): pass"
               "python" "p1" None].
Proof.
  apply (index_code_snippet_new_key_appends hash_stub provider_ok
           env_without_extension empty_store store_after_first_upsert
           "a.py" "def f(): pass" "python" "p1" None).
  - constructor.
  - vm_compute. reflexivity.
Defined.

Lemma search_similar_code_at_most_limit_witness :
  Z.of_nat
    (length (fst (search_similar_code hash_stub provider_ok cosine_stub
                    distance_stub env_without_extension store_of_two_rows
                    "function definition" (Some "p1") None 1 0%Q)))
  <= 1.
Proof.
  apply (search_similar_code_at_most_limit hash_stub provider_ok cosine_stub
           distance_stub env_without_extension store_of_two_rows
           "function definition" (Some "p1") None 1 0%Q).
  lia.
Defined.

Lemma search_similar_code_returns_filtered_rows_witness :
  exists r,
    In r (code_embeddings store_of_two_rows)
    /\ hit_of_row (row_hit row_a 1) r
    /\ (forall p, Some "p1" = Some p -> p <> EmptyString ->
                  Row.project_id r = p)
    /\ (forall l, @None string = Some l -> l <> EmptyString ->
                  Row.language r = l).
Proof.
  apply (search_similar_code_returns_filtered_rows hash_stub provider_ok
           cosine_stub distance_stub env_without_extension store_of_two_rows
           "function definition" (Some "p1") None 5 0%Q
           (row_hit row_a 1)).
  vm_compute. left. reflexivity.
Defined.


(** An upsert of a new key on the table of two rows, then a search that
    loads the extension: the accelerated path returns the snippet. *)
Local Abbreviation store_after_indexing_c :=
  (snd (index_code_snippet hash_stub provider_same env_without_extension
          store_of_two_rows "c.py" "def h(): pass" "python" "p1" None)).


(** The same search, evaluated: the accelerated statement completes and
    returns the stored row of cosine 1 and the snippet. *)
Lemma index_then_search_on_accelerated_path :
  map Hit.file_path
    (fst (search_similar_code hash_stub provider_same cosine_stub
            distance_stub env_with_extension store_after_indexing_c
            "function definition" (Some "p1") (Some "python") 5 (7 # 10)))
  = ["a.py"; "c.py"]
  /\ db_log
       (snd (search_similar_code hash_stub provider_same cosine_stub
               distance_stub env_with_extension store_after_indexing_c
               "function definition" (Some "p1") (Some "python") 5 (7 # 10)))
     = db_log store_after_indexing_c
       ++ [LoadExtension "vec0" true; VecDistanceQuery].
Proof. split; vm_compute; reflexivity. Qed.

(** Deleting the project ["p2"], which has a row, from the table of
    three rows. *)
Local Abbreviation store_of_three_rows :=
  (init env_without_extension three_rows).

Lemma delete_project_keeps_other_projects_witness :
  get_project_stats (snd (delete_project_embeddings store_of_three_rows "p2"))
    "p1"
  = get_project_stats store_of_three_rows "p1"
  /\ embedding_service
       (snd (delete_project_embeddings store_of_three_rows "p2"))
     = embedding_service store_of_three_rows.
Proof.
  apply (delete_project_keeps_other_projects store_of_three_rows "p2" "p1").
  discriminate.
Defined.

(** The same deletion, evaluated: the row of ["p2"] is gone, the two
    rows of ["p1"] are counted as before. *)
Lemma delete_project_on_three_rows :
  ProjectStats.total_files (get_project_stats store_of_three_rows "p2")
  = 1%nat
  /\ map Row.file_id
       (code_embeddings
          (snd (delete_project_embeddings store_of_three_rows "p2")))
     = ["p1:a.py"; "p1:b.py"]
  /\ ProjectStats.total_files
       (get_project_stats
          (snd (delete_project_embeddings store_of_three_rows "p2")) "p1")
     = 2%nat.
Proof. repeat split; vm_compute; reflexivity. Qed.

(** The statistics of the project after one upsert and after its
    deletion. *)
Lemma stats_after_upsert_and_after_delete :
  get_project_stats store_after_first_upsert "p1"
  = ProjectStats.mk 1 1 13 (Some 1700000000) "completed"
  /\ get_project_stats
       (snd (delete_project_embeddings store_after_first_upsert "p1")) "p1"
     = ProjectStats.mk 0 0 0 None "empty".
Proof. split; vm_compute; reflexivity. Qed.

Lemma index_then_stats_are_completed_witness :
  (1 <= ProjectStats.total_files
          (get_project_stats store_after_first_upsert "p1"))%nat
  /\ ProjectStats.status (get_project_stats store_after_first_upsert "p1")
     = "completed"
  /\ exists m,
       ProjectStats.last_indexed
         (get_project_stats store_after_first_upsert "p1") = Some m
       /\ timestamp env_without_extension <= m.
Proof.
  apply (index_then_stats_are_completed hash_stub provider_ok
           env_without_extension empty_store store_after_first_upsert
           "a.py" "def f(): pass" "python" "p1" None).
  vm_compute. reflexivity.
Defined.

Local Abbreviation two_files :=
  [FileData.mk "a.py" "def f(): pass" "python" "p1" None;
   FileData.mk "b.py" "def g(): pass" "python" "p1" (Some None)].

(** A batch of two files whose second request fails: one success, one
    failure with its message. *)
Lemma batch_index_files_second_fails :
  fst (batch_index_files hash_stub provider_second_fails
         (fun _ => env_without_extension) empty_store two_files)
  = BatchResult.mk 1 1 ["Failed to index b.py"].
Proof. vm_compute. reflexivity. Qed.

(** A batch of two files, one of a stored key and one of a new key, on
    the table of three rows. *)
Local Abbreviation files_a_and_d :=
  [FileData.mk "a.py" "def f(): return 2" "python" "p1" None;
   FileData.mk "d.py" "def k(): pass" "python" "p2" (Some None)].

Lemma batch_index_files_keeps_table_well_formed_witness :
  let table' :=
    code_embeddings
      (snd (batch_index_files hash_stub provider_ok
              (fun _ => env_with_extension) store_of_three_rows
              files_a_and_d)) in
  table_keys_ok table' /\ table_file_ids_unique table'.
Proof.
  apply (batch_index_files_keeps_table_well_formed hash_stub provider_ok
           (fun _ => env_with_extension) store_of_three_rows files_a_and_d).
  - repeat constructor.
  - apply (bool_decide_unpack _). vm_compute. exact I.
Defined.

(** The same batch, evaluated. *)
Lemma batch_index_files_on_three_rows :
  map Row.file_id
    (code_embeddings
       (snd (batch_index_files hash_stub provider_ok
               (fun _ => env_with_extension) store_of_three_rows
               files_a_and_d)))
  = ["p1:b.py"; "p2:c.py"; "p1:a.py"; "p2:d.py"].
Proof. vm_compute. reflexivity. Qed.

(** A request for the threshold 0 and the limit 0, without a project:
    the entry of similarity 1 is returned, the entry of similarity 0 is
    not. *)
Local Abbreviation request_zero :=
  (CodeSearchRequest.mk "function definition" None None (Some 0) (Some 0%Q)).

Local Abbreviation answer_zero :=
  (SearchResponse.mk "function definition" [row_hit row_a 1] 1).

Local Abbreviation store_after_request_zero :=
  (snd (search_code hash_stub provider_ok cosine_stub distance_stub
          (fun _ _ => true) env_without_extension store_of_two_rows
          request_zero "user-1")).

Lemma search_code_zero_threshold_witness :
  above (7 # 10) (SearchResponse.results answer_zero).
Proof.
  apply (search_code_zero_threshold_is_default hash_stub provider_ok
           cosine_stub distance_stub (fun _ _ => true) env_without_extension
           store_of_two_rows store_after_request_zero request_zero "user-1"
           answer_zero None).
  - right. exists 0%Q. split; reflexivity.
  - vm_compute. reflexivity.
Defined.

Lemma search_code_zero_limit_witness :
  (length (SearchResponse.results answer_zero) <= 10)%nat
  /\ SearchResponse.total answer_zero
     = length (SearchResponse.results answer_zero).
Proof.
  apply (search_code_zero_limit_is_default hash_stub provider_ok
           cosine_stub distance_stub (fun _ _ => true) env_without_extension
           store_of_two_rows store_after_request_zero request_zero "user-1"
           answer_zero None).
  - right. reflexivity.
  - vm_compute. reflexivity.
Defined.
